(** * airthings_exporter: the polling-and-caching collector

    A shallow embedding of [main.go] and [api.go]: the device inventory
    cache ([DeviceConfig]), the refresh policy ([updateRequired],
    [discover]), the per-device sample loop ([retrieveMetrics]) and the
    scrape entry point ([Collect]).

    The Go code talks to three collaborators that are not part of the
    repository: the clock ([time.Now]), the OAuth2 token source
    ([tokenSource.Token]) and the HTTP client ([resty]).  They are modelled
    as an environment [Env] of oracles indexed by the number of calls made
    so far, and the program is written in a small state-and-panic monad
    [M] over the machine state. *)

From Stdlib Require Import ZArith QArith Floats Uint63 String List.
From stdpp Require Import base gmap strings list.

Local Open Scope string_scope.

(** ** The [time] package: what [updateRequired] uses of it *)

Module time.

(** A [Time] is an instant with nanosecond resolution.  It is represented
    by the number of nanoseconds since the zero [Time] (January 1, year 1,
    00:00:00 UTC), which is the value of an uninitialised [time.Time]. *)
Definition Time : Type := Z.

(** A [Duration] is an [int64] count of nanoseconds. *)
Definition Duration : Type := Z.

Definition zero : Time := 0%Z.

Definition IsZero (t : Time) : bool := (t =? 0)%Z.

Definition minDuration : Duration := (- 2 ^ 63)%Z.
Definition maxDuration : Duration := (2 ^ 63 - 1)%Z.

(** [t.Sub(u)]: the difference, saturated to the range of [int64]. *)
Definition Sub (t u : Time) : Duration :=
  let d := (t - u)%Z in
  if (d <? minDuration)%Z then minDuration
  else if (maxDuration <? d)%Z then maxDuration
  else d.

Definition Nanosecond : Duration := 1%Z.
Definition Second : Duration := (1000 * 1000 * 1000 * Nanosecond)%Z.
Definition Minute : Duration := (60 * Second)%Z.

(** [d.Minutes()] is [float64(d / Minute) + float64(d % Minute) / (60 * 1e9)]
    with Go's truncating division.  Both conversions are exact (the
    operands are below 2^53) and the only use the exporter makes of the
    result is the comparison with 30, which the two roundings of the
    quotient and of the sum cannot change: the fractional part is either
    0 or at least 1/(6e10), far above the spacing of doubles near 30.
    The value is therefore given as the exact rational. *)
Definition Minutes (d : Duration) : Q :=
  (inject_Z (Z.quot d Minute) + inject_Z (Z.rem d Minute) / inject_Z (60 * 10 ^ 9))%Q.

(** The same computation on doubles, as [Duration.Minutes] writes it, for
    comparison with the exact value at the thirty-minute mark (see
    [Minutes64_at_the_mark]).  [float64_of_int64] is exact on the operands
    [Minutes64] gives it, which are below 2^53 in absolute value. *)
Definition float64_of_int64 (z : Z) : float :=
  if (z <? 0)%Z then PrimFloat.opp (PrimFloat.of_uint63 (Uint63.of_Z (- z)))
  else PrimFloat.of_uint63 (Uint63.of_Z z).

Definition Minutes64 (d : Duration) : float :=
  (float64_of_int64 (Z.quot d Minute)
   + float64_of_int64 (Z.rem d Minute) / (60 * 1e9))%float.

End time.

(** ** [api.go]: reading names and the JSON shapes of the remote API *)

Definition AirthingsMetric : Type := string.

Definition Battery : AirthingsMetric := "battery".
Definition CO2 : AirthingsMetric := "co2".
Definition Humidity : AirthingsMetric := "humidity".
Definition Pm1 : AirthingsMetric := "pm1".
Definition Pm25 : AirthingsMetric := "pm25".
Definition Pressure : AirthingsMetric := "pressure".
Definition Radon : AirthingsMetric := "radonShortTermAvg".
Definition Temperature : AirthingsMetric := "temp".
Definition VOC : AirthingsMetric := "voc".
Definition DeviceType : AirthingsMetric := "relayDeviceType".

Definition float64 : Type := float.

(** A value of Go's [any] as [encoding/json] produces it: numbers decode to
    [float64], the other JSON values to strings, booleans, nil, slices and
    maps. *)
#[local] Unset Elimination Schemes.
Inductive any : Type :=
| AnyFloat64 (value : float64)
| AnyString (s : string)
| AnyBool (b : bool)
| AnyNil
| AnySlice (elems : list any)
| AnyMap (fields : list (string * any)).
#[local] Set Elimination Schemes.

Record AirthingsMetricsResult : Type := {
  Data : gmap AirthingsMetric any
}.

Record AirthingsSegment : Type := {
  seg_Id : string;
  seg_Name : string;
  seg_Active : bool
}.

Record AirthingsLocation : Type := {
  loc_Id : string;
  loc_Name : string
}.

Record AirthingDevice : Type := {
  Id : string;
  dev_DeviceType : string;
  Sensors : list string;
  Segment : AirthingsSegment;
  Location : AirthingsLocation
}.

Record AirthingsDevicesResult : Type := {
  Devices : list AirthingDevice
}.

(** The values [&AirthingsDevicesResult{}] and [&AirthingsMetricsResult{}]
    handed to [SetResult]: a nil slice and a nil map. *)
Definition emptyDevicesResult : AirthingsDevicesResult := {| Devices := [] |}.
Definition emptyMetricsResult : AirthingsMetricsResult := {| Data := ∅ |}.

(** ** The part of [prometheus] the exporter uses *)

Module prometheus.

Inductive ValueType : Type := CounterValue | GaugeValue | UntypedValue.

Record Desc : Type := {
  fqName : string;
  help : string;
  variableLabels : list string;
  constLabels : list (string * string)
}.

Definition isEmpty (s : string) : bool :=
  match s with EmptyString => true | _ => false end.

Definition BuildFQName (namespace subsystem name : string) : string :=
  if isEmpty name then ""
  else if negb (isEmpty namespace) && negb (isEmpty subsystem)
       then namespace ++ "_" ++ subsystem ++ "_" ++ name
  else if negb (isEmpty namespace) then namespace ++ "_" ++ name
  else if negb (isEmpty subsystem) then subsystem ++ "_" ++ name
  else name.

Definition NewDesc (fq helpText : string) (labels : list string)
    (consts : list (string * string)) : Desc :=
  {| fqName := fq; help := helpText; variableLabels := labels; constLabels := consts |}.

(** A constant metric: descriptor, kind, value and the label values in
    the order of the descriptor's variable labels. *)
Record Metric : Type := {
  desc : Desc;
  valType : ValueType;
  value : float64;
  labelValues : list string
}.

(** [NewConstMetric] refuses a number of label values different from the
    number of variable labels of the descriptor.  (Its other check, that
    the label values are valid UTF-8, cannot fail on the exporter's
    labels, which [encoding/json] decoded.) *)
Definition NewConstMetric (d : Desc) (t : ValueType) (v : float64)
    (lvs : list string) : option Metric :=
  if Nat.eqb (length lvs) (length (variableLabels d))
  then Some {| desc := d; valType := t; value := v; labelValues := lvs |}
  else None.

End prometheus.

(** ** [main.go]: types *)

Definition namespace : string := "airthings".

Record metricInfo : Type := {
  Desc : prometheus.Desc;
  Type_ : prometheus.ValueType
}.

Record Device : Type := {
  id : string;
  segment : string;
  location : string
}.

Record DeviceConfig : Type := {
  lastUpdate : time.Time;
  devices : list Device
}.

Definition labelNames : list string := ["device"; "segment"; "location"].

Definition newMetric (metricName docString : string) (t : prometheus.ValueType)
    (constLabels : list (string * string)) : metricInfo :=
  {| Desc := prometheus.NewDesc
               (prometheus.BuildFQName namespace "cloud" metricName)
               docString labelNames constLabels;
     Type_ := t |}.

(** The Metric Registry. *)
Definition airthingMetrics : gmap AirthingsMetric metricInfo :=
  list_to_map
    [ (Battery, newMetric "battery" "Battery charge capacity" prometheus.GaugeValue []);
      (CO2, newMetric "co2" "CO2 levels" prometheus.GaugeValue []);
      (Humidity, newMetric "humidity" "Humidity" prometheus.GaugeValue []);
      (Pm1, newMetric "pm1" "Extremely fine particles, less than 1 microns" prometheus.GaugeValue []);
      (Pm25, newMetric "pm25" "Fine particles, less than 2.5 microns" prometheus.GaugeValue []);
      (Pressure, newMetric "air_pressure" "Pressure" prometheus.GaugeValue []);
      (Radon, newMetric "radon" "Radon, short term average" prometheus.GaugeValue []);
      (Temperature, newMetric "temperature" "Temperature" prometheus.GaugeValue []);
      (VOC, newMetric "voc" "Volatile organic compounds" prometheus.GaugeValue []) ].

(** ** Collaborators *)

Definition error : Type := string.

(** The result of a Go call returning [(value, error)] where the value is
    meaningful only when the error is nil. *)
Inductive result (A : Type) : Type :=
| Success (a : A)
| Failure (err : error).
Arguments Success {A} a.
Arguments Failure {A} err.

(** [oauth2.Token], of which only the bearer string is used. *)
Record Token : Type := { AccessToken : string }.

Module resty.

(** What comes back from the network for one request: no HTTP exchange
    at all, or a response with its status code, whether its content type
    is JSON (or XML), and what unmarshalling its body into the requested
    result type gives ([None] when the body does not decode). *)
Inductive Reply (R : Type) : Type :=
| TransportError (err : error)
| HttpResponse (status : Z) (structured : bool) (parsed : option R).
Arguments TransportError {R} err.
Arguments HttpResponse {R} status structured parsed.

(** A [resty.Response]: the status code and the object given to
    [SetResult], filled in when the body was decoded. *)
Record Response (R : Type) : Type := {
  StatusCode : Z;
  Result : R
}.
Arguments StatusCode {R} _.
Arguments Result {R} _.

Definition IsSuccess (status : Z) : bool := ((199 <? status) && (status <? 300))%Z.

Definition StatusNoContent : Z := 204%Z.

(** [R().SetResult(&zero).Get(url)] as resty v2 documents and implements
    it ([Client.execute] followed by the [parseResponseBody] response
    middleware): the error is non-nil when the exchange itself fails or
    when the body of a 2xx response with a JSON content type does not
    unmarshal; a response with any other status is returned with a nil
    error and the result object left as it was given. *)
Definition Get {R : Type} (zero : R) (reply : Reply R) : Response R * option error :=
  match reply with
  | TransportError err => ({| StatusCode := 0; Result := zero |}, Some err)
  | HttpResponse status structured parsed =>
      if (status =? StatusNoContent)%Z
      then ({| StatusCode := status; Result := zero |}, None)
      else if structured && IsSuccess status
      then match parsed with
           | Some r => ({| StatusCode := status; Result := r |}, None)
           | None => ({| StatusCode := status; Result := zero |},
                      Some "json: cannot unmarshal response body")
           end
      else ({| StatusCode := status; Result := zero |}, None)
  end.

End resty.

(** The outside world as the exporter sees it.  Each oracle takes the
    number of calls of its kind made before, so that successive calls may
    answer differently; the HTTP oracles also see the request (bearer
    token, and serial number for the samples endpoint).  [visitAt] decides
    the order in which a [range] loop visits the entries of a map, which Go
    leaves unspecified; it takes the number of HTTP calls made when the
    loop starts (see [shuffle]). *)
Record Env : Type := {
  nowAt : nat -> time.Time;
  tokenAt : nat -> result Token;
  devicesReplyAt : nat -> string -> resty.Reply AirthingsDevicesResult;
  samplesReplyAt : nat -> string -> string -> resty.Reply AirthingsMetricsResult;
  visitAt : nat -> list nat
}.

(** [shuffle cs l] reorders [l] by picking, for each choice [c] in turn,
    the element at position [c mod length l] of what is left; when the
    choices run out the rest follows in its order.  Every reordering of [l]
    is [shuffle cs l] for some [cs], and nothing else is. *)
Fixpoint shuffle {A : Type} (cs : list nat) (l : list A) : list A :=
  match cs with
  | [] => l
  | c :: cs' =>
      let i := c mod length l in
      match l !! i with
      | Some x => x :: shuffle cs' (delete i l)
      | None => l
      end
  end.

(** ** Machine state *)

Inductive Level : Type := LevelDebug | LevelInfo | LevelWarn | LevelError.

(** One line written through [level.X(e.logger).Log(keyvals...)]. *)
Record LogLine : Type := {
  lvl : Level;
  keyvals : list (string * string)
}.

(** The [Exporter] struct.  [tokenSource] and [resty] are the oracles of
    [Env]; [mutex] is [true] while the lock is held; [logger] collects the
    lines logged so far. *)
Record Exporter : Type := {
  mutex : bool;
  metrics : gmap AirthingsMetric metricInfo;
  logger : list LogLine;
  deviceConfig : DeviceConfig
}.

(** The exporter, the call counters of the three collaborators and the
    metrics sent so far on the channel [ch] given to [Collect]. *)
Record Machine : Type := {
  e : Exporter;
  nowCalls : nat;
  tokenCalls : nat;
  httpCalls : nat;
  ch : list prometheus.Metric
}.

Definition withExporter (f : Exporter -> Exporter) (m : Machine) : Machine :=
  {| e := f (e m); nowCalls := nowCalls m; tokenCalls := tokenCalls m;
     httpCalls := httpCalls m; ch := ch m |}.

Definition countNow (m : Machine) : Machine :=
  {| e := e m; nowCalls := S (nowCalls m); tokenCalls := tokenCalls m;
     httpCalls := httpCalls m; ch := ch m |}.

Definition countToken (m : Machine) : Machine :=
  {| e := e m; nowCalls := nowCalls m; tokenCalls := S (tokenCalls m);
     httpCalls := httpCalls m; ch := ch m |}.

Definition countHttp (m : Machine) : Machine :=
  {| e := e m; nowCalls := nowCalls m; tokenCalls := tokenCalls m;
     httpCalls := S (httpCalls m); ch := ch m |}.

Definition setMutex (b : bool) (x : Exporter) : Exporter :=
  {| mutex := b; metrics := metrics x; logger := logger x; deviceConfig := deviceConfig x |}.

Definition appendLog (l : LogLine) (x : Exporter) : Exporter :=
  {| mutex := mutex x; metrics := metrics x; logger := logger x ++ [l];
     deviceConfig := deviceConfig x |}.

Definition setDeviceConfig (dc : DeviceConfig) (x : Exporter) : Exporter :=
  {| mutex := mutex x; metrics := metrics x; logger := logger x; deviceConfig := dc |}.

Definition setLastUpdate (t : time.Time) (x : Exporter) : Exporter :=
  setDeviceConfig {| lastUpdate := t; devices := devices (deviceConfig x) |} x.

Definition setDevices (ds : list Device) (x : Exporter) : Exporter :=
  setDeviceConfig {| lastUpdate := lastUpdate (deviceConfig x); devices := ds |} x.

(** ** The monad: state, panics, and blocking on the mutex *)

Inductive Outcome (A : Type) : Type :=
| Ret (a : A) (m : Machine)
| Panic (msg : string) (m : Machine)
| Blocked (m : Machine).
Arguments Ret {A} a m.
Arguments Panic {A} msg m.
Arguments Blocked {A} m.

Definition M (A : Type) : Type := Env -> Machine -> Outcome A.

Definition ret {A : Type} (a : A) : M A := fun _ m => Ret a m.

Definition bind {A B : Type} (c : M A) (k : A -> M B) : M B :=
  fun env m =>
    match c env m with
    | Ret a m' => k a env m'
    | Panic msg m' => Panic msg m'
    | Blocked m' => Blocked m'
    end.

Declare Scope go_scope.
Delimit Scope go_scope with go.
Notation "x <- c1 ;; c2" := (bind c1 (fun x => c2))
  (at level 100, c1 at next level, right associativity) : go_scope.
Notation "c1 ;; c2" := (bind c1 (fun _ => c2))
  (at level 100, right associativity) : go_scope.
Local Open Scope go_scope.

Definition panic {A : Type} (msg : string) : M A := fun _ m => Panic msg m.

(** [defer d] in front of [body]: [d] runs when [body] returns and also
    when it panics, the panic then continuing. *)
Definition defer {A : Type} (d : M unit) (body : M A) : M A :=
  fun env m =>
    match body env m with
    | Ret a m' => (d ;; ret a) env m'
    | Panic msg m' =>
        match d env m' with
        | Ret _ m'' => Panic msg m''
        | Panic msg' m'' => Panic msg' m''
        | Blocked m'' => Blocked m''
        end
    | Blocked m' => Blocked m'
    end.

(** [for _, x := range xs { body x }] over a slice. *)
Fixpoint forEach {A : Type} (xs : list A) (body : A -> M unit) : M unit :=
  match xs with
  | [] => ret tt
  | x :: rest => body x ;; forEach rest body
  end.

Definition getExporter : M Exporter := fun _ m => Ret (e m) m.

Definition modifyExporter (f : Exporter -> Exporter) : M unit :=
  fun _ m => Ret tt (withExporter f m).

(** [level.X(e.logger).Log(...)] *)
Definition Log (l : Level) (kvs : list (string * string)) : M unit :=
  modifyExporter (appendLog {| lvl := l; keyvals := kvs |}).

(** [time.Now()] *)
Definition time_Now : M time.Time :=
  fun env m =>
    Ret (nowAt env (nowCalls m)) (countNow m).

(** [time.Since(t)] is [time.Now().Sub(t)]. *)
Definition time_Since (t : time.Time) : M time.Duration :=
  now <- time_Now ;; ret (time.Sub now t).

(** [e.tokenSource.Token()] *)
Definition tokenSource_Token : M (result Token) :=
  fun env m =>
    Ret (tokenAt env (tokenCalls m)) (countToken m).

(** [e.resty.R().SetAuthToken(tok).SetResult(&AirthingsDevicesResult{}).Get(".../v1/devices")] *)
Definition getDevices (tok : string)
    : M (resty.Response AirthingsDevicesResult * option error) :=
  fun env m =>
    Ret (resty.Get emptyDevicesResult (devicesReplyAt env (httpCalls m) tok))
        (countHttp m).

(** The same for [".../v1/devices/{serialNumber}/latest-samples"] with
    [&AirthingsMetricsResult{}]. *)
Definition getLatestSamples (tok serialNumber : string)
    : M (resty.Response AirthingsMetricsResult * option error) :=
  fun env m =>
    Ret (resty.Get emptyMetricsResult (samplesReplyAt env (httpCalls m) tok serialNumber))
        (countHttp m).

(** The entries of a Go map in the order a [range] loop visits them. *)
Definition rangeMap {V : Type} (data : gmap string V) : M (list (string * V)) :=
  fun env m => Ret (shuffle (visitAt env (httpCalls m)) (map_to_list data)) m.

(** [ch <- metric] *)
Definition send (metric : prometheus.Metric) : M unit :=
  fun _ m =>
    Ret tt {| e := e m; nowCalls := nowCalls m; tokenCalls := tokenCalls m;
              httpCalls := httpCalls m; ch := ch m ++ [metric] |}.

(** [prometheus.MustNewConstMetric] panics where [NewConstMetric] returns
    an error. *)
Definition MustNewConstMetric (d : prometheus.Desc) (t : prometheus.ValueType)
    (v : float64) (lvs : list string) : M prometheus.Metric :=
  match prometheus.NewConstMetric d t v lvs with
  | Some metric => ret metric
  | None => panic "inconsistent label cardinality"
  end.

(** [e.mutex.Lock()]: waits for ever when the lock is already held. *)
Definition mutex_Lock : M unit :=
  fun _ m => if mutex (e m) then Blocked m else Ret tt (withExporter (setMutex true) m).

(** [e.mutex.Unlock()] *)
Definition mutex_Unlock : M unit :=
  fun _ m =>
    if mutex (e m) then Ret tt (withExporter (setMutex false) m)
    else Panic "sync: Unlock of unlocked RWMutex" m.

(** ** [main.go]: the collector *)

(** [dc.updateRequired()], on the exporter's device configuration.  The
    clock is read only when [lastUpdate] is not the zero time ([||] is
    short-circuit). *)
Definition updateRequired : M bool :=
  x <- getExporter ;;
  let dc := deviceConfig x in
  if time.IsZero (lastUpdate dc) then ret true
  else
    d <- time_Since (lastUpdate dc) ;;
    ret (negb (Qle_bool (time.Minutes d) 30)).

(** The key/value lists of the three error lines. *)
Definition tokenFailed (err : error) : list (string * string) :=
  [("msg", "failed to get access token, will try again later"); ("err", err)].

Definition devicesFailed (err : error) : list (string * string) :=
  [("msg", "failed to get devices, will try again later"); ("err", err)].

Definition metricsFailed (d : Device) (err : error) : list (string * string) :=
  [("msg", "failed to get metrics for device"); ("device", id d); ("err", err)].

(** [&Device{r.Id, r.Segment.Name, r.Location.Name}] *)
Definition newDevice (r : AirthingDevice) : Device :=
  {| id := Id r; segment := seg_Name (Segment r); location := loc_Name (Location r) |}.

Definition updatingDevice (r : AirthingDevice) : LogLine :=
  {| lvl := LevelInfo;
     keyvals := [("msg", "updating device"); ("device", Id r);
                 ("segment", seg_Name (Segment r));
                 ("location", loc_Name (Location r))] |}.

(** The [range result.Devices] loop of [discover], which logs each device
    and appends it to the local slice [devices]. *)
Fixpoint collectDevices (rs : list AirthingDevice) (devs : list Device) : M (list Device) :=
  match rs with
  | [] => ret devs
  | r :: rest =>
      Log (lvl (updatingDevice r)) (keyvals (updatingDevice r)) ;;
      collectDevices rest (devs ++ [newDevice r])
  end.

Definition discover : M unit :=
  required <- updateRequired ;;
  if required then
    defer (now <- time_Now ;; modifyExporter (setLastUpdate now))
      (tok <- tokenSource_Token ;;
       match tok with
       | Failure err =>
           Log LevelError (tokenFailed err)
       | Success token =>
           r <- getDevices (AccessToken token) ;;
           match snd r with
           | Some err =>
               Log LevelError (devicesFailed err)
           | None =>
               let result := resty.Result (fst r) in
               devs <- collectDevices (Devices result) [] ;;
               modifyExporter (setDevices devs)
           end
       end)
  else ret tt.

(** The body of the [range result.Data] loop of [retrieveMetrics] for one
    entry of the map. *)
Definition emitReading (d : Device) (entry : AirthingsMetric * any) : M unit :=
  x <- getExporter ;;
  match metrics x !! entry.1 with
  | Some atm =>
      match entry.2 with
      | AnyFloat64 v =>
          metric <- MustNewConstMetric (Desc atm) (Type_ atm) v
                      [id d; segment d; location d] ;;
          send metric
      | _ => ret tt
      end
  | None => ret tt
  end.

(** The body of the [range e.deviceConfig.devices] loop. *)
Definition retrieveDevice (token : Token) (d : Device) : M unit :=
  r <- getLatestSamples (AccessToken token) (id d) ;;
  match snd r with
  | Some err =>
      Log LevelError (metricsFailed d err)
  | None =>
      let result := resty.Result (fst r) in
      Log LevelDebug [("msg", "airthings metrices received"); ("device", id d)] ;;
      entries <- rangeMap (Data result) ;;
      forEach entries (emitReading d)
  end.

Definition retrieveMetrics : M unit :=
  tok <- tokenSource_Token ;;
  match tok with
  | Failure err =>
      Log LevelError (tokenFailed err)
  | Success token =>
      x <- getExporter ;;
      forEach (devices (deviceConfig x)) (retrieveDevice token)
  end.

Definition Collect : M unit :=
  mutex_Lock ;;
  defer mutex_Unlock
    (discover ;;
     retrieveMetrics).

(** The exporter [main] builds, before its first scrape, and the machine
    it starts in. *)
Definition newExporter : Exporter :=
  {| mutex := false; metrics := airthingMetrics; logger := [];
     deviceConfig := {| lastUpdate := time.zero; devices := [] |} |}.

Definition initial : Machine :=
  {| e := newExporter; nowCalls := 0; tokenCalls := 0; httpCalls := 0; ch := [] |}.

(** ** Notions used in the statements *)

(** The machine an outcome ends in. *)
Definition machineOf {A : Type} (o : Outcome A) : Machine :=
  match o with
  | Ret _ m => m
  | Panic _ m => m
  | Blocked m => m
  end.

(** A refresh is attempted by [discover] when it asks the token source for
    a token, which is the first thing an attempt does. *)
Definition refreshAttempted (env : Env) (m : Machine) : Prop :=
  tokenCalls (machineOf (discover env m)) <> tokenCalls m.

(** The metrics a computation sends on the channel. *)
Definition sentBy (p : M unit) (env : Env) (m : Machine) : list prometheus.Metric :=
  drop (length (ch m)) (ch (machineOf (p env m))).

(** ** Sample worlds *)

Definition officeDevice : AirthingDevice :=
  {| Id := "d1"; dev_DeviceType := "WAVE_PLUS"; Sensors := ["co2"; "temp"];
     Segment := {| seg_Id := "s1"; seg_Name := "Office"; seg_Active := true |};
     Location := {| loc_Id := "l1"; loc_Name := "HQ" |} |}.

Definition d1 : Device := {| id := "d1"; segment := "Office"; location := "HQ" |}.
Definition d2 : Device := {| id := "d2"; segment := "Lab"; location := "HQ" |}.

Definition co2Sample : AirthingsMetricsResult :=
  {| Data := {[ CO2 := AnyFloat64 450%float; DeviceType := AnyString "wave_plus" ]} |}.

(** A clock that starts at [t0] and advances one second per reading. *)
Definition t0 : time.Time := (63800000000 * time.Second)%Z.
Definition clock (n : nat) : time.Time := (t0 + Z.of_nat n * time.Second)%Z.

(** Everything works: one device in the inventory, one CO2 reading. *)
Definition healthy : Env :=
  {| nowAt := clock;
     tokenAt := fun _ => Success {| AccessToken := "secret" |};
     devicesReplyAt := fun _ _ =>
       resty.HttpResponse 200 true (Some {| Devices := [officeDevice] |});
     samplesReplyAt := fun _ _ _ => resty.HttpResponse 200 true (Some co2Sample);
     visitAt := fun _ => [] |}.

(** The token endpoint is down. *)
Definition noToken : Env :=
  {| nowAt := clock;
     tokenAt := fun _ => Failure "oauth2: cannot fetch token";
     devicesReplyAt := devicesReplyAt healthy;
     samplesReplyAt := samplesReplyAt healthy;
     visitAt := visitAt healthy |}.

(** The network is down for the inventory endpoint. *)
Definition noNetwork : Env :=
  {| nowAt := clock;
     tokenAt := tokenAt healthy;
     devicesReplyAt := fun _ _ => resty.TransportError "dial tcp: i/o timeout";
     samplesReplyAt := samplesReplyAt healthy;
     visitAt := visitAt healthy |}.

(** The inventory endpoint answers 500 with a JSON error document, which
    is not an inventory. *)
Definition serverError : Env :=
  {| nowAt := clock;
     tokenAt := tokenAt healthy;
     devicesReplyAt := fun _ _ => resty.HttpResponse 500 true None;
     samplesReplyAt := samplesReplyAt healthy;
     visitAt := visitAt healthy |}.

(** An unlocked exporter whose inventory is [ds], last refreshed at [t]. *)
Definition cached (t : time.Time) (ds : list Device) : Machine :=
  withExporter (setDeviceConfig {| lastUpdate := t; devices := ds |}) initial.

(** ** Notions used in the statements about [retrieveMetrics] *)

(** The keys of the Metric Registry. *)
Definition registryKeys : list AirthingsMetric :=
  [Battery; CO2; Humidity; Pm1; Pm25; Pressure; Radon; Temperature; VOC].

(** The record the [range result.Data] loop builds for one map entry, if
    any. *)
Definition readingRecord (reg : gmap AirthingsMetric metricInfo) (d : Device)
    (entry : AirthingsMetric * any) : option prometheus.Metric :=
  match reg !! entry.1, entry.2 with
  | Some atm, AnyFloat64 v =>
      Some {| prometheus.desc := Desc atm; prometheus.valType := Type_ atm;
              prometheus.value := v;
              prometheus.labelValues := [id d; segment d; location d] |}
  | _, _ => None
  end.

Definition sendAll (ms : list prometheus.Metric) (m : Machine) : Machine :=
  {| e := e m; nowCalls := nowCalls m; tokenCalls := tokenCalls m;
     httpCalls := httpCalls m; ch := (ch m ++ ms)%list |}.

Definition atCall (n : nat) (m : Machine) : Machine :=
  {| e := e m; nowCalls := nowCalls m; tokenCalls := tokenCalls m;
     httpCalls := n; ch := ch m |}.

(** The records sent for device [d] when it is the [j]-th device of the
    scrape starting in [m]: what the body of the device loop sends when its
    request is HTTP call number [httpCalls m + j]. *)
Definition deviceRecords (env : Env) (token : Token) (m : Machine) (j : nat)
    (d : Device) : list prometheus.Metric :=
  sentBy (retrieveDevice token d) env (atCall (httpCalls m + j) m).

(** The record for reading [k] of value [v] of device [d]. *)
Definition gaugeRecord (d : Device) (r : AirthingsMetric * (metricInfo * float64))
    : prometheus.Metric :=
  {| prometheus.desc := Desc r.2.1; prometheus.valType := prometheus.GaugeValue;
     prometheus.value := r.2.2;
     prometheus.labelValues := [id d; segment d; location d] |}.

(** What the samples request numbered [n] brings back for device [d], and
    the records made of it. *)
Definition samplesOf (env : Env) (token : Token) (n : nat) (d : Device)
    : resty.Response AirthingsMetricsResult * option error :=
  resty.Get emptyMetricsResult (samplesReplyAt env n (AccessToken token) (id d)).

Definition samplesRecords (env : Env) (token : Token) (n : nat) (d : Device)
    : list prometheus.Metric :=
  match snd (samplesOf env token n d) with
  | Some _ => []
  | None =>
      omap (readingRecord airthingMetrics d)
           (shuffle (visitAt env (S n))
              (map_to_list (Data (resty.Result (fst (samplesOf env token n d))))))
  end.

(** What a computation may not touch while it sends metrics and makes
    HTTP requests. *)
Definition sameExporterState (m m' : Machine) : Prop :=
  deviceConfig (e m') = deviceConfig (e m) /\
  metrics (e m') = metrics (e m) /\
  mutex (e m') = mutex (e m) /\
  nowCalls m' = nowCalls m /\
  tokenCalls m' = tokenCalls m.

(** The readings of a samples document that the registry knows and whose
    value is a number, each with its registry entry. *)
Definition numericReadings (data : gmap AirthingsMetric any)
    : gmap AirthingsMetric (metricInfo * float64) :=
  map_imap (fun k v =>
              match airthingMetrics !! k, v with
              | Some atm, AnyFloat64 f => Some (atm, f)
              | _, _ => None
              end) data.

(** As [healthy], but the first samples request of the process fails. *)
Definition firstRequestFails : Env :=
  {| nowAt := clock;
     tokenAt := tokenAt healthy;
     devicesReplyAt := devicesReplyAt healthy;
     samplesReplyAt := fun n tok serial =>
       match n with
       | O => resty.TransportError "context deadline exceeded"
       | S _ => samplesReplyAt healthy n tok serial
       end;
     visitAt := visitAt healthy |}.

(** ** [main.go]: the rest of the collector interface *)

(** The [range airthingMetrics] loop of [Describe], sending on its channel
    of descriptors; the channel is threaded through as the list of what
    was sent on it. *)
Fixpoint sendDescs (entries : list (AirthingsMetric * metricInfo))
    (descs : list prometheus.Desc) : M (list prometheus.Desc) :=
  match entries with
  | [] => ret descs
  | entry :: rest => sendDescs rest (descs ++ [Desc entry.2])
  end.

(** [e.Describe(ch)].  It ranges over the package-level [airthingMetrics],
    not over [e.metrics], and does not take the lock. *)
Definition Describe (descs : list prometheus.Desc) : M (list prometheus.Desc) :=
  entries <- rangeMap airthingMetrics ;;
  sendDescs entries descs.

(** [n] scrapes one after the other, as the registry calls [Collect] for
    successive requests of the metrics page. *)
Fixpoint scrapes (n : nat) : M unit :=
  match n with
  | O => ret tt
  | S k => Collect ;; scrapes k
  end.

(** The log line of a device whose samples arrived. *)
Definition metricsReceived (d : Device) : LogLine :=
  {| lvl := LevelDebug;
     keyvals := [("msg", "airthings metrices received"); ("device", id d)] |}.

(** The log line the device loop writes for device [d] when its request is
    HTTP call number [n]. *)
Definition deviceLogLine (env : Env) (token : Token) (n : nat) (d : Device) : LogLine :=
  match snd (samplesOf env token n d) with
  | Some err => {| lvl := LevelError; keyvals := metricsFailed d err |}
  | None => metricsReceived d
  end.

(** An inventory with two devices, and a world that serves it. *)
Definition labDevice : AirthingDevice :=
  {| Id := "d2"; dev_DeviceType := "WAVE_MINI"; Sensors := ["temp"];
     Segment := {| seg_Id := "s2"; seg_Name := "Lab"; seg_Active := true |};
     Location := {| loc_Id := "l1"; loc_Name := "HQ" |} |}.

Definition twoDevices : Env :=
  {| nowAt := clock;
     tokenAt := tokenAt healthy;
     devicesReplyAt := fun _ _ =>
       resty.HttpResponse 200 true (Some {| Devices := [officeDevice; labDevice] |});
     samplesReplyAt := samplesReplyAt healthy;
     visitAt := visitAt healthy |}.

(** A world whose token source gives a token once and fails afterwards. *)
Definition tokenExpires : Env :=
  {| nowAt := clock;
     tokenAt := fun n => match n with
                         | O => tokenAt healthy 0
                         | S _ => Failure "oauth2: token expired"
                         end;
     devicesReplyAt := devicesReplyAt healthy;
     samplesReplyAt := samplesReplyAt healthy;
     visitAt := visitAt healthy |}.

(** An outcome that is not a wait on the lock and ends with the lock and
    the registry as they were in [m]. *)
Definition keepsLock {A : Type} (o : Outcome A) (m : Machine) : Prop :=
  (forall m', o <> Blocked m') /\
  mutex (e (machineOf o)) = mutex (e m) /\
  metrics (e (machineOf o)) = metrics (e m).

(** A registry whose CO2 descriptor declares two labels where the exporter
    gives three values, and an exporter built with it. *)
Definition twoLabelRegistry : gmap AirthingsMetric metricInfo :=
  {[ CO2 := {| Desc := prometheus.NewDesc "airthings_cloud_co2" "CO2 levels"
                         ["device"; "segment"] [];
               Type_ := prometheus.GaugeValue |} ]}.

Definition misconfigured : Machine :=
  withExporter
    (fun x => {| mutex := false; metrics := twoLabelRegistry; logger := logger x;
                 deviceConfig := deviceConfig x |})
    initial.

(** * Properties *)

(** ** Time arithmetic *)

Lemma Minutes_exact (d : time.Duration) :
  (time.Minutes d == inject_Z d / inject_Z time.Minute)%Q.
Proof.
  unfold time.Minutes.
  assert (Hd : d = (time.Minute * Z.quot d time.Minute + Z.rem d time.Minute)%Z)
    by (apply Z.quot_rem'; discriminate).
  rewrite Hd at 3.
  change (60 * 10 ^ 9)%Z with time.Minute.
  rewrite inject_Z_plus, inject_Z_mult.
  field. discriminate.
Qed.

Lemma Minutes_gt_30 (d : time.Duration) :
  negb (Qle_bool (time.Minutes d) 30) = (30 * time.Minute <? d)%Z.
Proof.
  apply eq_true_iff_eq. rewrite negb_true_iff, Z.ltb_lt.
  rewrite <- not_true_iff_false, Qle_bool_iff, Minutes_exact.
  unfold Qle, Qdiv, Qmult, Qinv, inject_Z. simpl.
  unfold time.Minute, time.Second, time.Nanosecond.
  rewrite !Pos2Z.inj_mul. lia.
Qed.

(** On both sides of the thirty-minute mark, and at the ends of the range
    of [Duration], the comparison on doubles that Go performs gives what
    the comparison of the exact values gives. *)
Example Minutes64_at_the_mark :
  map (fun d => PrimFloat.ltb 30 (time.Minutes64 d))
      [ (30 * time.Minute - 1)%Z; (30 * time.Minute)%Z; (30 * time.Minute + 1)%Z;
        0%Z; time.minDuration; time.maxDuration ]
  = [false; false; true; false; false; true] /\
  map (fun d => negb (Qle_bool (time.Minutes d) 30))
      [ (30 * time.Minute - 1)%Z; (30 * time.Minute)%Z; (30 * time.Minute + 1)%Z;
        0%Z; time.minDuration; time.maxDuration ]
  = [false; false; true; false; false; true].
Proof. split; vm_compute; reflexivity. Qed.

(** Saturation does not move a difference across the thirty-minute mark. *)
Lemma Sub_gt_30 (t u : time.Time) :
  (30 * time.Minute <? time.Sub t u)%Z = (30 * time.Minute <? t - u)%Z.
Proof.
  unfold time.Sub, time.minDuration, time.maxDuration,
    time.Minute, time.Second, time.Nanosecond.
  apply eq_true_iff_eq. rewrite !Z.ltb_lt.
  destruct (Z.ltb_spec (t - u) (- 2 ^ 63)); [lia|].
  destruct (Z.ltb_spec (2 ^ 63 - 1) (t - u)); lia.
Qed.

(** ** The refresh policy *)

Lemma updateRequired_run (env : Env) (m : Machine) :
  updateRequired env m =
    if time.IsZero (lastUpdate (deviceConfig (e m))) then Ret true m
    else Ret (30 * time.Minute <? nowAt env (nowCalls m) - lastUpdate (deviceConfig (e m)))%Z
             (countNow m).
Proof.
  unfold updateRequired, bind, getExporter.
  destruct (time.IsZero _); [reflexivity|].
  unfold time_Since, time_Now, bind, ret.
  by rewrite Minutes_gt_30, Sub_gt_30.
Qed.

(** [updateRequired] touches nothing but the clock. *)
Lemma updateRequired_frame (env : Env) (m m1 : Machine) (b : bool) :
  updateRequired env m = Ret b m1 ->
  e m1 = e m /\ tokenCalls m1 = tokenCalls m /\ httpCalls m1 = httpCalls m /\
  ch m1 = ch m /\ (nowCalls m1 = nowCalls m \/ nowCalls m1 = S (nowCalls m)).
Proof.
  rewrite updateRequired_run.
  destruct (time.IsZero _); intros [= <- <-]; simpl; auto 10.
Qed.

Lemma updateRequired_iff (env : Env) (m : Machine) :
  (exists m1, updateRequired env m = Ret true m1) <->
  lastUpdate (deviceConfig (e m)) = time.zero \/
  (30 * time.Minute < nowAt env (nowCalls m) - lastUpdate (deviceConfig (e m)))%Z.
Proof.
  rewrite updateRequired_run. unfold time.IsZero, time.zero.
  destruct (Z.eqb_spec (lastUpdate (deviceConfig (e m))) 0) as [Hz|Hz].
  - split; [auto | eauto].
  - destruct (Z.ltb_spec (30 * time.Minute)
                (nowAt env (nowCalls m) - lastUpdate (deviceConfig (e m)))) as [Hlt|Hge].
    + split; [auto | eauto].
    + split; [intros [m1 [=]] | intros [?|?]; [done | lia]].
Qed.

Lemma collectDevices_run (rs : list AirthingDevice) :
  forall (devs : list Device) (env : Env) (m : Machine),
    collectDevices rs devs env m =
      Ret (devs ++ map newDevice rs)%list
          (withExporter
             (fun x => fold_left (fun y r => appendLog (updatingDevice r) y) rs x) m).
Proof.
  induction rs as [|r rest IH]; intros devs env m; simpl.
  - unfold ret. rewrite app_nil_r. by destruct m.
  - unfold bind, Log, modifyExporter. rewrite IH, <- app_assoc. reflexivity.
Qed.

Lemma fold_appendLog_frame (rs : list AirthingDevice) :
  forall x : Exporter,
    let y := fold_left (fun y r => appendLog (updatingDevice r) y) rs x in
    mutex y = mutex x /\ metrics y = metrics x /\ deviceConfig y = deviceConfig x /\
    logger y = (logger x ++ map updatingDevice rs)%list.
Proof.
  induction rs as [|r rest IH]; intros x; simpl.
  - by rewrite app_nil_r.
  - destruct (IH (appendLog (updatingDevice r) x)) as (-> & -> & -> & ->).
    simpl. by rewrite <- app_assoc.
Qed.

(** What a refresh attempt does, in its three endings. *)
Lemma discover_attempt (env : Env) (m m1 : Machine) :
  updateRequired env m = Ret true m1 ->
  exists m2,
    discover env m = Ret tt m2 /\
    lastUpdate (deviceConfig (e m2)) = nowAt env (nowCalls m1) /\
    nowCalls m2 = S (nowCalls m1) /\
    tokenCalls m2 = S (tokenCalls m1) /\
    ch m2 = ch m1 /\
    mutex (e m2) = mutex (e m1) /\
    metrics (e m2) = metrics (e m1) /\
    match tokenAt env (tokenCalls m1) with
    | Failure err =>
        devices (deviceConfig (e m2)) = devices (deviceConfig (e m1)) /\
        httpCalls m2 = httpCalls m1 /\
        logger (e m2) =
          (logger (e m1) ++ [{| lvl := LevelError; keyvals := tokenFailed err |}])%list
    | Success token =>
        httpCalls m2 = S (httpCalls m1) /\
        let r := resty.Get emptyDevicesResult
                   (devicesReplyAt env (httpCalls m1) (AccessToken token)) in
        match snd r with
        | Some err =>
            devices (deviceConfig (e m2)) = devices (deviceConfig (e m1)) /\
            logger (e m2) =
              (logger (e m1) ++ [{| lvl := LevelError; keyvals := devicesFailed err |}])%list
        | None =>
            devices (deviceConfig (e m2)) = map newDevice (Devices (resty.Result (fst r))) /\
            logger (e m2) =
              (logger (e m1) ++ map updatingDevice (Devices (resty.Result (fst r))))%list
        end
    end.
Proof.
  intros Hreq. unfold discover, bind at 1. rewrite Hreq.
  unfold defer, bind at 1, tokenSource_Token.
  destruct (tokenAt env (tokenCalls m1)) as [token|err].
  - unfold bind at 1, getDevices.
    destruct (resty.Get _ _) as [resp [err|]] eqn:Hget; simpl.
    + eexists; split; [reflexivity|]. simpl. auto 10.
    + unfold bind at 1. rewrite collectDevices_run. simpl.
      eexists; split; [reflexivity|]. simpl.
      destruct (fold_appendLog_frame (Devices (resty.Result resp)) (e m1))
        as (Hmu & Hme & Hdc & Hlog).
      simpl in *. auto 10.
  - simpl. eexists; split; [reflexivity|]. simpl. auto 10.
Qed.

Lemma discover_fresh (env : Env) (m m1 : Machine) :
  updateRequired env m = Ret false m1 -> discover env m = Ret tt m1.
Proof. intros Hreq. unfold discover, bind. by rewrite Hreq. Qed.

Lemma updateRequired_total (env : Env) (m : Machine) :
  exists b m1, updateRequired env m = Ret b m1.
Proof. rewrite updateRequired_run. destruct (time.IsZero _); eauto. Qed.

(** C1.  Whenever the staleness condition holds at the start of a scrape,
    [discover] ends with [lastUpdate] equal to the clock reading of its
    deferred [time.Now()], the last reading it makes, whatever the token
    source and the inventory endpoint answered; [Collect] then runs
    [retrieveMetrics] from that state. *)
Theorem refresh_attempt_stamps_lastUpdate (env : Env) (m : Machine) :
  mutex (e m) = false ->
  (lastUpdate (deviceConfig (e m)) = time.zero \/
   (30 * time.Minute < nowAt env (nowCalls m) - lastUpdate (deviceConfig (e m)))%Z) ->
  exists m2,
    discover env (withExporter (setMutex true) m) = Ret tt m2 /\
    nowCalls m < nowCalls m2 /\
    lastUpdate (deviceConfig (e m2)) = nowAt env (pred (nowCalls m2)) /\
    Collect env m = defer mutex_Unlock retrieveMetrics env m2.
Proof.
  intros Hfree Hstale.
  apply (updateRequired_iff env (withExporter (setMutex true) m)) in Hstale
    as [m1 Hreq].
  destruct (discover_attempt env _ m1 Hreq) as (m2 & Hrun & Hstamp & Hnow & _).
  destruct (updateRequired_frame _ _ _ _ Hreq) as (_ & _ & _ & _ & Hclock).
  simpl in Hclock.
  exists m2. split; [exact Hrun|]. split; [lia|]. split.
  - by rewrite Hnow.
  - unfold Collect, bind at 1, mutex_Lock. rewrite Hfree.
    unfold defer, bind at 1. by rewrite Hrun.
Qed.

Lemma refresh_attempt_stamps_lastUpdate_witness :
  exists m2,
    discover noToken (withExporter (setMutex true) initial) = Ret tt m2 /\
    nowCalls initial < nowCalls m2 /\
    lastUpdate (deviceConfig (e m2)) = nowAt noToken (pred (nowCalls m2)) /\
    Collect noToken initial = defer mutex_Unlock retrieveMetrics noToken m2.
Proof.
  apply (refresh_attempt_stamps_lastUpdate noToken initial).
  - reflexivity.
  - left. reflexivity.
Defined.

(** C2.  A refresh attempt that fails, on the token or on the inventory
    request, leaves the cached device list exactly as it was. *)
Theorem failed_refresh_keeps_devices (env : Env) (m m1 : Machine) :
  updateRequired env m = Ret true m1 ->
  ((exists err, tokenAt env (tokenCalls m) = Failure err) \/
   (exists token resp err,
      tokenAt env (tokenCalls m) = Success token /\
      resty.Get emptyDevicesResult
        (devicesReplyAt env (httpCalls m) (AccessToken token)) = (resp, Some err))) ->
  exists m2,
    discover env m = Ret tt m2 /\
    devices (deviceConfig (e m2)) = devices (deviceConfig (e m)).
Proof.
  intros Hreq Hfail.
  destruct (discover_attempt env m m1 Hreq) as (m2 & Hrun & _ & _ & _ & _ & _ & _ & Hend).
  destruct (updateRequired_frame _ _ _ _ Hreq) as (He & Htok & Hhttp & _).
  rewrite Htok, Hhttp, He in Hend.
  exists m2. split; [exact Hrun|].
  destruct Hfail as [[err Herr] | (token & resp & err & Htoken & Hget)].
  - rewrite Herr in Hend. tauto.
  - rewrite Htoken in Hend. simpl in Hend. rewrite Hget in Hend. simpl in Hend. tauto.
Qed.

Lemma failed_refresh_keeps_devices_witness :
  exists m2,
    discover noNetwork (cached time.zero [d1; d2]) = Ret tt m2 /\
    devices (deviceConfig (e m2)) = [d1; d2].
Proof.
  apply (failed_refresh_keeps_devices noNetwork (cached time.zero [d1; d2])
           (cached time.zero [d1; d2])).
  - reflexivity.
  - right. eexists _, _, _. split; reflexivity.
Defined.

(** Whether [discover] attempts a refresh is decided by [updateRequired]. *)
Lemma refreshAttempted_iff (env : Env) (m : Machine) :
  refreshAttempted env m <->
  lastUpdate (deviceConfig (e m)) = time.zero \/
  (30 * time.Minute < nowAt env (nowCalls m) - lastUpdate (deviceConfig (e m)))%Z.
Proof.
  rewrite <- updateRequired_iff. unfold refreshAttempted.
  destruct (updateRequired_total env m) as ([|] & m1 & Hreq).
  - destruct (discover_attempt env m m1 Hreq) as (m2 & -> & _ & _ & Htok & _).
    destruct (updateRequired_frame _ _ _ _ Hreq) as (_ & Htok1 & _).
    simpl. split; [eauto | lia].
  - rewrite (discover_fresh env m m1 Hreq). simpl.
    destruct (updateRequired_frame _ _ _ _ Hreq) as (_ & Htok1 & _).
    split; [congruence|]. intros [m1' Hreq']. congruence.
Qed.

(** C5.  [discover] attempts a refresh exactly when [lastUpdate] is the
    zero time or the clock, read at the start of the scrape, is more than
    thirty minutes (in nanoseconds) past it; otherwise it asks for no
    token, sends no request and leaves the inventory as it is. *)
Theorem refresh_attempted_iff_unset_or_older_than_30_minutes
    (env : Env) (m : Machine) :
  (refreshAttempted env m <->
     time.IsZero (lastUpdate (deviceConfig (e m))) = true \/
     (30 * 60 * 10 ^ 9 < nowAt env (nowCalls m) - lastUpdate (deviceConfig (e m)))%Z) /\
  (refreshAttempted env m \/
     (tokenCalls (machineOf (discover env m)) = tokenCalls m /\
      httpCalls (machineOf (discover env m)) = httpCalls m /\
      e (machineOf (discover env m)) = e m)).
Proof.
  split.
  - rewrite refreshAttempted_iff. unfold time.IsZero, time.zero.
    rewrite Z.eqb_eq.
    change (30 * time.Minute)%Z with (30 * 60 * 10 ^ 9)%Z. reflexivity.
  - destruct (updateRequired_total env m) as ([|] & m1 & Hreq).
    + left. apply refreshAttempted_iff, updateRequired_iff. eauto.
    + right. rewrite (discover_fresh env m m1 Hreq). simpl.
      destruct (updateRequired_frame _ _ _ _ Hreq) as (He & Htok & Hhttp & _).
      auto.
Qed.

(** C9 as stated fails: after a first scrape whose token request failed the
    inventory is empty, yet the next scrape, one second later, attempts no
    refresh. *)
Lemma empty_inventory_no_refresh_during_cooldown :
  let m := machineOf (Collect noToken initial) in
  devices (deviceConfig (e m)) = [] /\ ~ refreshAttempted noToken m.
Proof.
  split; [reflexivity|].
  intros Hattempt. apply Hattempt. vm_compute. reflexivity.
Qed.

(** C9, amended.  With an empty device list a refresh is attempted exactly
    when [lastUpdate] is zero or more than thirty minutes old: the device
    list plays no part in the decision, which is the same for every list. *)
Theorem empty_inventory_refresh_iff_lastUpdate_stale (env : Env) (m : Machine) :
  devices (deviceConfig (e m)) = [] ->
  (refreshAttempted env m <->
     lastUpdate (deviceConfig (e m)) = time.zero \/
     (30 * time.Minute < nowAt env (nowCalls m) - lastUpdate (deviceConfig (e m)))%Z) /\
  (forall ds : list Device,
     refreshAttempted env (withExporter (setDevices ds) m) <-> refreshAttempted env m).
Proof.
  intros _. split; [apply refreshAttempted_iff|].
  intros ds. rewrite !refreshAttempted_iff. reflexivity.
Qed.

Lemma empty_inventory_refresh_iff_lastUpdate_stale_witness :
  (refreshAttempted healthy (cached t0 []) <->
     t0 = time.zero \/ (30 * time.Minute < clock 0 - t0)%Z) /\
  (forall ds : list Device,
     refreshAttempted healthy (withExporter (setDevices ds) (cached t0 [])) <->
     refreshAttempted healthy (cached t0 [])).
Proof.
  apply (empty_inventory_refresh_iff_lastUpdate_stale healthy (cached t0 [])).
  reflexivity.
Defined.



(** ** The inventory fetch and HTTP error statuses *)

(** The HTTP client reports no error for a response whose status is not
    2xx: the result object comes back as it was given, empty. *)
Lemma Get_error_status {R : Type} (zero : R) (status : Z) (structured : bool)
    (parsed : option R) :
  resty.IsSuccess status = false ->
  resty.Get zero (resty.HttpResponse status structured parsed) =
    ({| resty.StatusCode := status; resty.Result := zero |}, None).
Proof.
  intros Hst. unfold resty.Get. rewrite Hst, andb_false_r.
  by destruct (status =? resty.StatusNoContent)%Z.
Qed.

(** A refresh whose inventory request is answered with an error status is
    carried out as a successful refresh with no device. *)
Lemma discover_error_status (env : Env) (m m1 : Machine) (token : Token)
    (status : Z) (structured : bool) (parsed : option AirthingsDevicesResult) :
  updateRequired env m = Ret true m1 ->
  tokenAt env (tokenCalls m) = Success token ->
  devicesReplyAt env (httpCalls m) (AccessToken token) =
    resty.HttpResponse status structured parsed ->
  resty.IsSuccess status = false ->
  exists m2,
    discover env m = Ret tt m2 /\
    devices (deviceConfig (e m2)) = [] /\
    logger (e m2) = logger (e m).
Proof.
  intros Hreq Htoken Hreply Hst.
  destruct (discover_attempt env m m1 Hreq) as (m2 & Hrun & _ & _ & _ & _ & _ & _ & Hend).
  destruct (updateRequired_frame _ _ _ _ Hreq) as (He & Htok & Hhttp & _).
  rewrite Htok, Hhttp, He, Htoken in Hend. simpl in Hend.
  rewrite Hreply, Get_error_status in Hend by exact Hst. simpl in Hend.
  exists m2. split; [exact Hrun|].
  destruct Hend as (_ & -> & ->). by rewrite app_nil_r.
Qed.

(** C3 fails on the code.  Two devices are cached and the inventory is due
    for a refresh; the inventory endpoint answers 500.  No error reaches
    [discover], nothing is logged, and the cached devices are replaced by
    the empty list. *)
Theorem server_error_empties_inventory :
  let m := cached time.zero [d1; d2] in
  devicesReplyAt serverError (httpCalls m) "secret" = resty.HttpResponse 500 true None /\
  snd (resty.Get emptyDevicesResult (devicesReplyAt serverError (httpCalls m) "secret"))
    = None /\
  exists m2,
    discover serverError m = Ret tt m2 /\
    devices (deviceConfig (e m)) = [d1; d2] /\
    devices (deviceConfig (e m2)) = [] /\
    logger (e m2) = [].
Proof.
  simpl. split; [reflexivity|]. split; [reflexivity|].
  eexists. split; [reflexivity|]. repeat split.
Qed.

(** ** The Metric Registry *)

Lemma registry_lookup (k : AirthingsMetric) (atm : metricInfo) :
  airthingMetrics !! k = Some atm ->
  k ∈ registryKeys /\
  prometheus.variableLabels (Desc atm) = labelNames /\
  Type_ atm = prometheus.GaugeValue.
Proof.
  intros Hk. apply elem_of_list_to_map_2 in Hk.
  unfold registryKeys.
  repeat (apply elem_of_cons in Hk as [[= -> ->]|Hk];
          [split; [set_solver | split; reflexivity]|]).
  by apply elem_of_nil in Hk.
Qed.

Lemma registry_keys (k : AirthingsMetric) :
  k ∈ registryKeys -> is_Some (airthingMetrics !! k).
Proof.
  unfold registryKeys. intros Hk.
  repeat (apply elem_of_cons in Hk as [->|Hk]; [by eexists|]).
  by apply elem_of_nil in Hk.
Qed.

(** ** The sample loop *)

Lemma emitReadings_run (d : Device) (entries : list (AirthingsMetric * any)) :
  forall (env : Env) (m : Machine),
    metrics (e m) = airthingMetrics ->
    forEach entries (emitReading d) env m =
      Ret tt (sendAll (omap (readingRecord airthingMetrics d) entries) m).
Proof.
  induction entries as [|[k v] rest IH]; intros env m Hreg; simpl.
  - unfold ret, sendAll. rewrite app_nil_r. by destruct m.
  - unfold bind at 1, emitReading, bind at 1, getExporter, readingRecord. simpl.
    rewrite Hreg.
    destruct (airthingMetrics !! k) as [atm|] eqn:Hk; simpl.
    + destruct (registry_lookup k atm Hk) as (_ & Hlabels & _).
      destruct v; simpl; try (rewrite IH by exact Hreg; reflexivity).
      unfold bind, MustNewConstMetric, prometheus.NewConstMetric.
      rewrite Hlabels. simpl.
      rewrite IH by exact Hreg.
      unfold sendAll. simpl. by rewrite <- app_assoc.
    + rewrite IH by exact Hreg. reflexivity.
Qed.

Lemma retrieveDevice_run (env : Env) (token : Token) (d : Device) (m : Machine) :
  metrics (e m) = airthingMetrics ->
  exists m',
    retrieveDevice token d env m = Ret tt m' /\
    ch m' = (ch m ++ samplesRecords env token (httpCalls m) d)%list /\
    httpCalls m' = S (httpCalls m) /\
    sameExporterState m m'.
Proof.
  intros Hreg. unfold retrieveDevice, bind at 1, getLatestSamples, samplesRecords, samplesOf.
  destruct (resty.Get _ _) as [resp [err|]]; simpl.
  - eexists. split; [reflexivity|]. simpl. rewrite app_nil_r.
    repeat split.
  - unfold bind, Log, modifyExporter, rangeMap.
    rewrite emitReadings_run by exact Hreg.
    eexists. split; [reflexivity|]. repeat split.
Qed.

Lemma deviceRecords_samples (env : Env) (token : Token) (m : Machine) (j : nat)
    (d : Device) :
  metrics (e m) = airthingMetrics ->
  deviceRecords env token m j d = samplesRecords env token (httpCalls m + j) d.
Proof.
  intros Hreg. unfold deviceRecords, sentBy.
  destruct (retrieveDevice_run env token d (atCall (httpCalls m + j) m) Hreg)
    as (m' & -> & Hch & _).
  simpl in *. rewrite Hch. apply drop_app_length.
Qed.

Lemma sameExporterState_trans (a b c : Machine) :
  sameExporterState a b -> sameExporterState b c -> sameExporterState a c.
Proof. unfold sameExporterState. intuition congruence. Qed.

Lemma forEach_devices_run (env : Env) (token : Token) (ds : list Device) :
  forall m : Machine,
    metrics (e m) = airthingMetrics ->
    exists m',
      forEach ds (retrieveDevice token) env m = Ret tt m' /\
      ch m' = (ch m ++ concat (imap (fun j d => samplesRecords env token (httpCalls m + j) d) ds))%list /\
      sameExporterState m m'.
Proof.
  induction ds as [|d rest IH]; intros m Hreg.
  - exists m. simpl. rewrite app_nil_r. by repeat split.
  - destruct (retrieveDevice_run env token d m Hreg) as (m1 & Hrun & Hch & Hhttp & Hsame).
    destruct (IH m1) as (m' & Hrun' & Hch' & Hsame').
    { destruct Hsame as (_ & -> & _). exact Hreg. }
    exists m'. split; [|split].
    + simpl. unfold bind. by rewrite Hrun.
    + rewrite Hch', Hch, imap_cons. simpl. rewrite Nat.add_0_r, <- app_assoc.
      do 3 f_equal. apply imap_ext. intros j x _. simpl.
      rewrite Hhttp. f_equal. lia.
    + eapply sameExporterState_trans; eassumption.
Qed.

(** A scrape whose token request succeeds sends, device after device, the
    records of each device, and neither panics nor touches the inventory. *)
Lemma retrieveMetrics_run (env : Env) (token : Token) (m : Machine) :
  metrics (e m) = airthingMetrics ->
  tokenAt env (tokenCalls m) = Success token ->
  exists m',
    retrieveMetrics env m = Ret tt m' /\
    ch m' = (ch m ++ concat (imap (deviceRecords env token m)
                               (devices (deviceConfig (e m)))))%list /\
    deviceConfig (e m') = deviceConfig (e m).
Proof.
  intros Hreg Htoken.
  unfold retrieveMetrics, bind at 1, tokenSource_Token. rewrite Htoken.
  unfold bind, getExporter.
  destruct (forEach_devices_run env token (devices (deviceConfig (e m)))
              (countToken m) Hreg) as (m' & Hrun & Hch & Hdc & _).
  exists m'. split; [exact Hrun|]. split; [|exact Hdc].
  rewrite Hch. simpl. do 2 f_equal. apply imap_ext. intros j d _.
  by rewrite deviceRecords_samples.
Qed.

Lemma sentBy_retrieveMetrics (env : Env) (token : Token) (m : Machine) :
  metrics (e m) = airthingMetrics ->
  tokenAt env (tokenCalls m) = Success token ->
  sentBy retrieveMetrics env m =
    concat (imap (deviceRecords env token m) (devices (deviceConfig (e m)))).
Proof.
  intros Hreg Htoken. unfold sentBy.
  destruct (retrieveMetrics_run env token m Hreg Htoken) as (m' & -> & Hch & _).
  simpl. rewrite Hch. apply drop_app_length.
Qed.

(** ** The visiting order of a map *)

Lemma shuffle_Permutation {A : Type} (cs : list nat) :
  forall l : list A, shuffle cs l ≡ₚ l.
Proof.
  induction cs as [|c cs IH]; intros l; simpl; [reflexivity|].
  destruct (l !! (c mod length l)) as [x|] eqn:Hx; [|reflexivity].
  rewrite IH. symmetry. by apply delete_Permutation.
Qed.

Example shuffle_picks :
  shuffle [2; 0; 5] ["battery"; "co2"; "temp"; "voc"] = ["temp"; "battery"; "voc"; "co2"].
Proof. reflexivity. Qed.

(** Every order is the order of some choices. *)
Lemma shuffle_complete {A : Type} (l' : list A) :
  forall l : list A, l ≡ₚ l' -> exists cs, shuffle cs l = l'.
Proof.
  induction l' as [|x t IH]; intros l Hperm.
  - apply Permutation_nil_r in Hperm as ->. by exists [].
  - assert (Hx : x ∈ l) by (rewrite Hperm; left).
    apply list_elem_of_lookup in Hx as [i Hi].
    assert (Hlt : i < length l) by (by eapply lookup_lt_Some).
    destruct (IH (delete i l)) as [cs Hcs].
    { apply (Permutation_cons_inv (a := x)).
      by rewrite <- Hperm, <- delete_Permutation. }
    exists (i :: cs). simpl.
    rewrite Nat.mod_small by exact Hlt. by rewrite Hi, Hcs.
Qed.

(** ** Readings and records *)

Lemma map_to_list_imap {A B : Type} (f : string -> A -> option B) (m : gmap string A) :
  map_to_list (map_imap f m) ≡ₚ
    omap (fun kv => pair kv.1 <$> f kv.1 kv.2) (map_to_list m).
Proof.
  induction m as [|k x m Hk _ IH] using map_first_key_ind.
  - by rewrite map_imap_empty, !map_to_list_empty.
  - rewrite map_imap_insert, (map_to_list_insert m k x Hk). simpl.
    assert (Hnone : map_imap f m !! k = None)
      by (by rewrite map_lookup_imap, Hk).
    destruct (f k x) as [y|]; simpl.
    + rewrite (map_to_list_insert _ k y Hnone). by rewrite IH.
    + by rewrite (delete_id _ _ Hnone).
Qed.

Lemma numericReadings_lookup (data : gmap AirthingsMetric any)
    (k : AirthingsMetric) (atm : metricInfo) (v : float64) :
  numericReadings data !! k = Some (atm, v) <->
  k ∈ registryKeys /\ airthingMetrics !! k = Some atm /\ data !! k = Some (AnyFloat64 v).
Proof.
  unfold numericReadings. rewrite map_lookup_imap.
  destruct (data !! k) as [x|] eqn:Hdata; simpl.
  - destruct (airthingMetrics !! k) as [atm'|] eqn:Hreg.
    + destruct (registry_lookup k atm' Hreg) as (Hkey & _).
      destruct x; split; (intros [= <- <-] || intros (_ & [= <-] & [= <-]) ||
                          intros (_ & _ & [=])); auto.
    + split; [intros [=] | intros (_ & [=] & _)].
  - split; [intros [=] | intros (_ & _ & [=])].
Qed.

Lemma records_of_readings (d : Device) (data : gmap AirthingsMetric any)
    (cs : list nat) :
  omap (readingRecord airthingMetrics d) (shuffle cs (map_to_list data)) ≡ₚ
    gaugeRecord d <$> map_to_list (numericReadings data).
Proof.
  rewrite shuffle_Permutation.
  unfold numericReadings. rewrite map_to_list_imap, list_fmap_omap.
  erewrite list_omap_ext; [reflexivity|].
  apply Forall_Forall2_diag, Forall_forall. intros [k v] _.
  unfold readingRecord, gaugeRecord. simpl.
  destruct (airthingMetrics !! k) as [atm|] eqn:Hreg; [|reflexivity].
  destruct (registry_lookup k atm Hreg) as (_ & _ & Hgauge).
  destruct v; simpl; try reflexivity. by rewrite Hgauge.
Qed.

(** C6.  In a scrape whose token request succeeds, take the [j]-th cached
    device [d] and suppose its samples request returns without error.  The
    scrape returns normally, having sent the records of each device in
    turn, and the records of [d] are, up to their order, one record per
    entry of [readings], the finite map that holds exactly the readings
    whose key is one of the nine registry keys and whose value is a
    [float64] (so none for [relayDeviceType]): that record carries the registry descriptor of the key, the
    gauge kind, the reading's value, and the label values [id], [segment],
    [location] in that order. *)
Theorem one_record_per_registered_numeric_reading
    (env : Env) (m : Machine) (token : Token) (j : nat) (d : Device)
    (resp : resty.Response AirthingsMetricsResult) :
  metrics (e m) = airthingMetrics ->
  tokenAt env (tokenCalls m) = Success token ->
  devices (deviceConfig (e m)) !! j = Some d ->
  resty.Get emptyMetricsResult
    (samplesReplyAt env (httpCalls m + j) (AccessToken token) (id d)) = (resp, None) ->
  exists (m' : Machine) (readings : gmap AirthingsMetric (metricInfo * float64)),
    retrieveMetrics env m = Ret tt m' /\
    ch m' = (ch m ++ concat (imap (deviceRecords env token m)
                               (devices (deviceConfig (e m)))))%list /\
    (forall k atm v,
       readings !! k = Some (atm, v) <->
       k ∈ registryKeys /\ airthingMetrics !! k = Some atm /\
       Data (resty.Result resp) !! k = Some (AnyFloat64 v)) /\
    readings !! DeviceType = None /\
    deviceRecords env token m j d ≡ₚ
      (fun r : AirthingsMetric * (metricInfo * float64) =>
         {| prometheus.desc := Desc r.2.1;
            prometheus.valType := prometheus.GaugeValue;
            prometheus.value := r.2.2;
            prometheus.labelValues := [id d; segment d; location d] |})
      <$> map_to_list readings.
Proof.
  intros Hreg Htoken _ Hget.
  destruct (retrieveMetrics_run env token m Hreg Htoken) as (m' & Hrun & Hch & _).
  exists m', (numericReadings (Data (resty.Result resp))).
  split; [exact Hrun|]. split; [exact Hch|]. split; [|split].
  - intros k atm v. apply numericReadings_lookup.
  - unfold numericReadings. rewrite map_lookup_imap.
    by destruct (Data (resty.Result resp) !! DeviceType).
  - rewrite (deviceRecords_samples env token m j d Hreg).
    unfold samplesRecords, samplesOf. rewrite Hget. simpl.
    apply records_of_readings.
Qed.

Lemma one_record_per_registered_numeric_reading_witness :
  exists (m' : Machine) (readings : gmap AirthingsMetric (metricInfo * float64)),
    retrieveMetrics healthy (cached t0 [d1]) = Ret tt m' /\
    ch m' = ([] ++ concat (imap (deviceRecords healthy {| AccessToken := "secret" |}
                                   (cached t0 [d1])) [d1]))%list /\
    (forall k atm v,
       readings !! k = Some (atm, v) <->
       k ∈ registryKeys /\ airthingMetrics !! k = Some atm /\
       Data co2Sample !! k = Some (AnyFloat64 v)) /\
    readings !! DeviceType = None /\
    deviceRecords healthy {| AccessToken := "secret" |} (cached t0 [d1]) 0 d1 ≡ₚ
      (fun r : AirthingsMetric * (metricInfo * float64) =>
         {| prometheus.desc := Desc r.2.1;
            prometheus.valType := prometheus.GaugeValue;
            prometheus.value := r.2.2;
            prometheus.labelValues := ["d1"; "Office"; "HQ"] |})
      <$> map_to_list readings.
Proof.
  apply (one_record_per_registered_numeric_reading healthy (cached t0 [d1])
           {| AccessToken := "secret" |} 0 d1
           {| resty.StatusCode := 200; resty.Result := co2Sample |});
    reflexivity.
Defined.

(** ** Isolation of a failing device *)

Lemma samplesRecords_failed (env : Env) (token : Token) (n : nat) (d : Device)
    (resp : resty.Response AirthingsMetricsResult) (err : error) :
  resty.Get emptyMetricsResult (samplesReplyAt env n (AccessToken token) (id d))
    = (resp, Some err) ->
  samplesRecords env token n d = [].
Proof. intros Hget. unfold samplesRecords, samplesOf. by rewrite Hget. Qed.

(** C7.  [env] and [env'] are two worlds that give the same token, visit
    maps in the same order, and differ at most in the answer to the samples
    request of the [i]-th cached device [X], which fails in [env].  The scrape in [env] returns normally and sends nothing for [X];
    what it sends is, device by device, what the scrape in [env'] sends for
    every device other than the [i]-th. *)
Theorem failed_device_is_isolated
    (env env' : Env) (m : Machine) (token : Token) (i : nat) (X : Device)
    (resp : resty.Response AirthingsMetricsResult) (err : error) :
  metrics (e m) = airthingMetrics ->
  tokenAt env (tokenCalls m) = Success token ->
  tokenAt env' (tokenCalls m) = Success token ->
  devices (deviceConfig (e m)) !! i = Some X ->
  resty.Get emptyMetricsResult
    (samplesReplyAt env (httpCalls m + i) (AccessToken token) (id X)) = (resp, Some err) ->
  (forall n tok serial,
     n <> httpCalls m + i ->
     samplesReplyAt env' n tok serial = samplesReplyAt env n tok serial) ->
  (forall n, visitAt env' n = visitAt env n) ->
  (exists m1, retrieveMetrics env m = Ret tt m1) /\
  deviceRecords env token m i X = [] /\
  sentBy retrieveMetrics env m =
    concat (imap (fun j d => if decide (j = i) then []
                             else deviceRecords env' token m j d)
                 (devices (deviceConfig (e m)))) /\
  sentBy retrieveMetrics env' m =
    concat (imap (deviceRecords env' token m) (devices (deviceConfig (e m)))).
Proof.
  intros Hreg Htoken Htoken' HX Hget Hsame Hvisit.
  assert (Hnone : deviceRecords env token m i X = []).
  { rewrite deviceRecords_samples by exact Hreg.
    by apply (samplesRecords_failed env token _ X resp err). }
  split; [|split; [exact Hnone|split]].
  - destruct (retrieveMetrics_run env token m Hreg Htoken) as (m1 & Hrun & _).
    by exists m1.
  - rewrite (sentBy_retrieveMetrics env token m Hreg Htoken).
    f_equal. apply imap_ext. intros j d Hd.
    destruct (decide (j = i)) as [->|Hne].
    + rewrite HX in Hd. injection Hd as <-. exact Hnone.
    + rewrite !deviceRecords_samples by exact Hreg.
      unfold samplesRecords, samplesOf. rewrite Hsame, Hvisit by lia. reflexivity.
  - exact (sentBy_retrieveMetrics env' token m Hreg Htoken').
Qed.

Lemma failed_device_is_isolated_witness :
  (exists m1, retrieveMetrics firstRequestFails (cached t0 [d1; d2]) = Ret tt m1) /\
  deviceRecords firstRequestFails {| AccessToken := "secret" |} (cached t0 [d1; d2]) 0 d1
    = [] /\
  sentBy retrieveMetrics firstRequestFails (cached t0 [d1; d2]) =
    concat (imap (fun j d => if decide (j = 0) then []
                             else deviceRecords healthy {| AccessToken := "secret" |}
                                    (cached t0 [d1; d2]) j d)
                 [d1; d2]) /\
  sentBy retrieveMetrics healthy (cached t0 [d1; d2]) =
    concat (imap (deviceRecords healthy {| AccessToken := "secret" |}
                    (cached t0 [d1; d2])) [d1; d2]).
Proof.
  apply (failed_device_is_isolated firstRequestFails healthy (cached t0 [d1; d2])
           {| AccessToken := "secret" |} 0 d1
           {| resty.StatusCode := 0; resty.Result := emptyMetricsResult |}
           "context deadline exceeded").
  - reflexivity.
  - reflexivity.
  - reflexivity.
  - reflexivity.
  - reflexivity.
  - intros [|n] tok serial Hn; [simpl in Hn; lia | reflexivity].
  - reflexivity.
Defined.

(** The scenario of the specification: two devices cached, the first one's
    request fails, the second one's brings one CO2 reading. *)
Example second_device_still_reported :
  sentBy retrieveMetrics firstRequestFails (cached t0 [d1; d2]) =
    [ {| prometheus.desc :=
           {| prometheus.fqName := "airthings_cloud_co2";
              prometheus.help := "CO2 levels";
              prometheus.variableLabels := ["device"; "segment"; "location"];
              prometheus.constLabels := [] |};
         prometheus.valType := prometheus.GaugeValue;
         prometheus.value := 450%float;
         prometheus.labelValues := ["d2"; "Lab"; "HQ"] |} ].
Proof. vm_compute. reflexivity. Qed.

(** ** Token failure before any inventory is cached *)

(** C8.  A scrape that starts with the lock free, no device cached and
    [lastUpdate] unset, and whose first token request fails, returns
    normally (no panic), sends nothing, logs the token error, and leaves
    the device list empty and the lock released; whether the second token
    request, that of [retrieveMetrics], fails as well does not matter. *)
Theorem token_failure_with_empty_inventory (env : Env) (m : Machine) (err : error) :
  mutex (e m) = false ->
  devices (deviceConfig (e m)) = [] ->
  lastUpdate (deviceConfig (e m)) = time.zero ->
  tokenAt env (tokenCalls m) = Failure err ->
  exists m',
    Collect env m = Ret tt m' /\
    ch m' = ch m /\
    devices (deviceConfig (e m')) = [] /\
    {| lvl := LevelError; keyvals := tokenFailed err |} ∈ logger (e m') /\
    mutex (e m') = false.
Proof.
  intros Hfree Hempty Hzero Htoken.
  assert (Hreq : updateRequired env (withExporter (setMutex true) m)
                 = Ret true (withExporter (setMutex true) m)).
  { rewrite updateRequired_run. simpl. by rewrite Hzero. }
  destruct (discover_attempt env _ _ Hreq)
    as (m2 & Hrun & _ & _ & Htok & Hch & Hmu & _ & Hend).
  simpl in Htok, Hch, Hmu, Hend. rewrite Htoken in Hend.
  destruct Hend as (Hdev & _ & Hlog). rewrite Hempty in Hdev.
  unfold Collect, bind at 1, mutex_Lock. rewrite Hfree.
  unfold defer, bind at 1. rewrite Hrun.
  unfold retrieveMetrics, bind at 1, tokenSource_Token.
  destruct (tokenAt env (tokenCalls m2)) as [token|err'].
  - unfold bind, getExporter. simpl. rewrite Hdev. simpl.
    unfold mutex_Unlock, ret. simpl. rewrite Hmu.
    eexists. split; [reflexivity|]. simpl.
    rewrite Hlog, Hdev. set_solver.
  - unfold Log, modifyExporter, bind, mutex_Unlock, ret. simpl. rewrite Hmu.
    eexists. split; [reflexivity|]. simpl.
    rewrite Hlog, Hdev. set_solver.
Qed.

Lemma token_failure_with_empty_inventory_witness :
  exists m',
    Collect noToken initial = Ret tt m' /\
    ch m' = [] /\
    devices (deviceConfig (e m')) = [] /\
    {| lvl := LevelError; keyvals := tokenFailed "oauth2: cannot fetch token" |}
      ∈ logger (e m') /\
    mutex (e m') = false.
Proof.
  apply (token_failure_with_empty_inventory noToken initial
           "oauth2: cannot fetch token"); reflexivity.
Defined.

(** ** The lock *)

(** While the lock is held, [Collect] waits: it makes no call and touches
    nothing. *)
Lemma Collect_waits_for_lock (env : Env) (m : Machine) :
  mutex (e m) = true -> Collect env m = Blocked m.
Proof. intros Hheld. unfold Collect, bind, mutex_Lock. by rewrite Hheld. Qed.

Lemma retrieveMetrics_returns (env : Env) (m : Machine) :
  metrics (e m) = airthingMetrics ->
  exists m',
    retrieveMetrics env m = Ret tt m' /\
    mutex (e m') = mutex (e m) /\
    deviceConfig (e m') = deviceConfig (e m) /\
    metrics (e m') = metrics (e m).
Proof.
  intros Hreg. unfold retrieveMetrics, bind at 1, tokenSource_Token.
  destruct (tokenAt env (tokenCalls m)) as [token|err].
  - unfold bind, getExporter.
    destruct (forEach_devices_run env token (devices (deviceConfig (e m)))
                (countToken m) Hreg) as (m' & Hrun & _ & Hdc & Hme & Hmu & _).
    exists m'. auto.
  - eexists. split; [reflexivity|]. auto.
Qed.

Lemma discover_returns (env : Env) (m : Machine) :
  exists m',
    discover env m = Ret tt m' /\
    mutex (e m') = mutex (e m) /\
    metrics (e m') = metrics (e m).
Proof.
  destruct (updateRequired_total env m) as ([|] & m1 & Hreq);
    destruct (updateRequired_frame _ _ _ _ Hreq) as (He & _).
  - destruct (discover_attempt env m m1 Hreq)
      as (m2 & Hrun & _ & _ & _ & _ & Hmu & Hme & _).
    exists m2. rewrite Hmu, Hme, He. auto.
  - exists m1. rewrite (discover_fresh env m m1 Hreq), He. auto.
Qed.

(** With the lock free, a scrape of the exporter [main] builds always
    returns, neither panicking nor waiting, and gives the lock back. *)
Lemma Collect_returns (env : Env) (m : Machine) :
  mutex (e m) = false ->
  metrics (e m) = airthingMetrics ->
  exists m',
    Collect env m = Ret tt m' /\
    mutex (e m') = false /\
    metrics (e m') = airthingMetrics.
Proof.
  intros Hfree Hreg.
  unfold Collect, bind at 1, mutex_Lock. rewrite Hfree.
  destruct (discover_returns env (withExporter (setMutex true) m))
    as (m1 & Hrun1 & Hmu1 & Hme1).
  simpl in Hmu1, Hme1. rewrite Hreg in Hme1.
  destruct (retrieveMetrics_returns env m1 Hme1) as (m2 & Hrun2 & Hmu2 & _ & Hme2).
  unfold defer, bind at 1. rewrite Hrun1, Hrun2.
  unfold bind, mutex_Unlock, ret. rewrite Hmu2, Hmu1.
  eexists. split; [reflexivity|]. simpl. split; [reflexivity|congruence].
Qed.

(** The scenario of the specification: empty inventory, the refresh brings
    device [d1], its samples hold a CO2 reading and a device-type string. *)
Example first_scrape_of_one_device :
  sentBy Collect healthy initial =
    [ {| prometheus.desc :=
           {| prometheus.fqName := "airthings_cloud_co2";
              prometheus.help := "CO2 levels";
              prometheus.variableLabels := ["device"; "segment"; "location"];
              prometheus.constLabels := [] |};
         prometheus.valType := prometheus.GaugeValue;
         prometheus.value := 450%float;
         prometheus.labelValues := ["d1"; "Office"; "HQ"] |} ].
Proof. vm_compute. reflexivity. Qed.

(** * Further properties of the collector *)

(** ** [discover]: the endings of a refresh attempt *)

(** A refresh whose token and inventory requests both succeed replaces the
    cached list, whatever it held, by one device per inventory record, in
    the order of the document, each made of the record's id, segment name
    and location name; it logs one line per device, makes one HTTP request
    and sends no metric. *)
Theorem successful_refresh_replaces_devices (env : Env) (m m1 : Machine)
    (token : Token) (resp : resty.Response AirthingsDevicesResult) :
  updateRequired env m = Ret true m1 ->
  tokenAt env (tokenCalls m) = Success token ->
  resty.Get emptyDevicesResult
    (devicesReplyAt env (httpCalls m) (AccessToken token)) = (resp, None) ->
  exists m2,
    discover env m = Ret tt m2 /\
    Forall2 (fun (r : AirthingDevice) (d : Device) =>
               id d = Id r /\ segment d = seg_Name (Segment r) /\
               location d = loc_Name (Location r))
            (Devices (resty.Result resp)) (devices (deviceConfig (e m2))) /\
    logger (e m2) =
      (logger (e m) ++ map updatingDevice (Devices (resty.Result resp)))%list /\
    httpCalls m2 = S (httpCalls m) /\
    ch m2 = ch m.
Proof.
  intros Hreq Htoken Hget.
  destruct (discover_attempt env m m1 Hreq)
    as (m2 & Hrun & _ & _ & _ & Hch & _ & _ & Hend).
  destruct (updateRequired_frame _ _ _ _ Hreq) as (He & Htok & Hhttp & Hch1 & _).
  rewrite Htok, Hhttp, He, Htoken in Hend. simpl in Hend.
  rewrite Hget in Hend. simpl in Hend.
  destruct Hend as (Hcalls & Hdev & Hlog).
  exists m2. split; [exact Hrun|]. split; [|split; [exact Hlog|split; congruence]].
  rewrite Hdev. clear.
  induction (Devices (resty.Result resp)) as [|r rs IH]; simpl; constructor; auto.
Qed.

Lemma successful_refresh_replaces_devices_witness :
  exists m2,
    discover twoDevices (cached time.zero [d2]) = Ret tt m2 /\
    Forall2 (fun (r : AirthingDevice) (d : Device) =>
               id d = Id r /\ segment d = seg_Name (Segment r) /\
               location d = loc_Name (Location r))
            [officeDevice; labDevice] (devices (deviceConfig (e m2))) /\
    logger (e m2) = ([] ++ map updatingDevice [officeDevice; labDevice])%list /\
    httpCalls m2 = 1 /\
    ch m2 = [].
Proof.
  apply (successful_refresh_replaces_devices twoDevices (cached time.zero [d2])
           (cached time.zero [d2]) {| AccessToken := "secret" |}
           {| resty.StatusCode := 200;
              resty.Result := {| Devices := [officeDevice; labDevice] |} |});
    reflexivity.
Defined.

(** A refresh attempt whose token request fails stops there: no HTTP
    request is made, exactly one error line is logged, carrying the error,
    and nothing is sent. *)
Theorem token_failure_stops_refresh (env : Env) (m m1 : Machine) (err : error) :
  updateRequired env m = Ret true m1 ->
  tokenAt env (tokenCalls m) = Failure err ->
  exists m2,
    discover env m = Ret tt m2 /\
    httpCalls m2 = httpCalls m /\
    tokenCalls m2 = S (tokenCalls m) /\
    logger (e m2) =
      (logger (e m) ++ [{| lvl := LevelError; keyvals := tokenFailed err |}])%list /\
    ch m2 = ch m.
Proof.
  intros Hreq Htoken.
  destruct (discover_attempt env m m1 Hreq)
    as (m2 & Hrun & _ & _ & Htok2 & Hch & _ & _ & Hend).
  destruct (updateRequired_frame _ _ _ _ Hreq) as (He & Htok & Hhttp & Hch1 & _).
  rewrite Htok, Hhttp, He, Htoken in Hend.
  destruct Hend as (_ & Hcalls & Hlog).
  exists m2. repeat split; congruence.
Qed.

Lemma token_failure_stops_refresh_witness :
  exists m2,
    discover noToken initial = Ret tt m2 /\
    httpCalls m2 = 0 /\
    tokenCalls m2 = 1 /\
    logger (e m2) =
      ([] ++ [{| lvl := LevelError;
                 keyvals := tokenFailed "oauth2: cannot fetch token" |}])%list /\
    ch m2 = [].
Proof.
  apply (token_failure_stops_refresh noToken initial initial
           "oauth2: cannot fetch token"); reflexivity.
Defined.

(** ** [retrieveMetrics] *)

(** When its token request fails, [retrieveMetrics] gives up for every
    cached device: no HTTP request, no metric, one error line, and the
    inventory as it was. *)
Theorem retrieveMetrics_without_token (env : Env) (m : Machine) (err : error) :
  tokenAt env (tokenCalls m) = Failure err ->
  exists m',
    retrieveMetrics env m = Ret tt m' /\
    ch m' = ch m /\
    httpCalls m' = httpCalls m /\
    deviceConfig (e m') = deviceConfig (e m) /\
    logger (e m') =
      (logger (e m) ++ [{| lvl := LevelError; keyvals := tokenFailed err |}])%list.
Proof.
  intros Htoken. unfold retrieveMetrics, bind, tokenSource_Token.
  rewrite Htoken. eexists. split; [reflexivity|]. repeat split.
Qed.

Lemma retrieveMetrics_without_token_witness :
  exists m',
    retrieveMetrics noToken (cached t0 [d1; d2]) = Ret tt m' /\
    ch m' = [] /\
    httpCalls m' = 0 /\
    deviceConfig (e m') = {| lastUpdate := t0; devices := [d1; d2] |} /\
    logger (e m') =
      ([] ++ [{| lvl := LevelError;
                 keyvals := tokenFailed "oauth2: cannot fetch token" |}])%list.
Proof.
  apply (retrieveMetrics_without_token noToken (cached t0 [d1; d2])
           "oauth2: cannot fetch token"); reflexivity.
Defined.

Lemma retrieveDevice_log (env : Env) (token : Token) (d : Device) (m : Machine) :
  metrics (e m) = airthingMetrics ->
  exists m',
    retrieveDevice token d env m = Ret tt m' /\
    httpCalls m' = S (httpCalls m) /\
    metrics (e m') = metrics (e m) /\
    logger (e m') = (logger (e m) ++ [deviceLogLine env token (httpCalls m) d])%list.
Proof.
  intros Hreg.
  unfold retrieveDevice, bind at 1, getLatestSamples, deviceLogLine, samplesOf.
  destruct (resty.Get _ _) as [resp [err|]]; simpl.
  - eexists. split; [reflexivity|]. repeat split.
  - unfold bind, Log, modifyExporter, rangeMap.
    rewrite emitReadings_run by exact Hreg.
    eexists. split; [reflexivity|]. repeat split.
Qed.

Lemma forEach_devices_log (env : Env) (token : Token) (ds : list Device) :
  forall m : Machine,
    metrics (e m) = airthingMetrics ->
    exists m',
      forEach ds (retrieveDevice token) env m = Ret tt m' /\
      httpCalls m' = httpCalls m + length ds /\
      logger (e m') =
        (logger (e m)
         ++ imap (fun j d => deviceLogLine env token (httpCalls m + j) d) ds)%list.
Proof.
  induction ds as [|d rest IH]; intros m Hreg.
  - exists m. simpl. rewrite app_nil_r, Nat.add_0_r. by repeat split.
  - destruct (retrieveDevice_log env token d m Hreg) as (m1 & Hrun & Hhttp & Hme & Hlog).
    destruct (IH m1) as (m' & Hrun' & Hhttp' & Hlog'); [congruence|].
    exists m'. split; [|split].
    + simpl. unfold bind. by rewrite Hrun.
    + rewrite Hhttp', Hhttp. simpl. lia.
    + rewrite Hlog', Hlog, imap_cons, Nat.add_0_r, <- app_assoc. simpl.
      do 2 f_equal. apply imap_ext. intros j x _. simpl.
      rewrite Hhttp. f_equal. lia.
Qed.

Lemma retrieveMetrics_with_token (env : Env) (m : Machine) (token : Token) :
  metrics (e m) = airthingMetrics ->
  tokenAt env (tokenCalls m) = Success token ->
  exists m',
    retrieveMetrics env m = Ret tt m' /\
    httpCalls m' = httpCalls m + length (devices (deviceConfig (e m))) /\
    tokenCalls m' = S (tokenCalls m) /\
    nowCalls m' = nowCalls m /\
    deviceConfig (e m') = deviceConfig (e m) /\
    metrics (e m') = metrics (e m) /\
    mutex (e m') = mutex (e m) /\
    ch m' = (ch m ++ concat (imap (deviceRecords env token m)
                               (devices (deviceConfig (e m)))))%list /\
    logger (e m') =
      (logger (e m)
       ++ imap (fun j d => deviceLogLine env token (httpCalls m + j) d)
               (devices (deviceConfig (e m))))%list.
Proof.
  intros Hreg Htoken.
  unfold retrieveMetrics, bind at 1, tokenSource_Token.
  rewrite Htoken. unfold bind, getExporter. simpl.
  destruct (forEach_devices_log env token (devices (deviceConfig (e m)))
              (countToken m) Hreg) as (m1 & Hrun1 & Hhttp & Hlog).
  destruct (forEach_devices_run env token (devices (deviceConfig (e m)))
              (countToken m) Hreg) as (m2 & Hrun2 & Hch & Hdc & Hme & Hmu & Hnow & Htok).
  simpl in *. rewrite Hrun1 in Hrun2. injection Hrun2 as <-.
  exists m1. split; [exact Hrun1|]. repeat split; try assumption.
  rewrite Hch. do 2 f_equal. apply imap_ext. intros j d _.
  by rewrite deviceRecords_samples.
Qed.

(** With a token, [retrieveMetrics] makes exactly one HTTP request per
    cached device, failing devices included, and writes exactly one log
    line per device, in the order of the list: an error line naming the
    device and the error when its request failed, a debug line naming the
    device otherwise.  The inventory is not touched. *)
Theorem one_request_and_one_log_line_per_device
    (env : Env) (m : Machine) (token : Token) :
  metrics (e m) = airthingMetrics ->
  tokenAt env (tokenCalls m) = Success token ->
  exists m',
    retrieveMetrics env m = Ret tt m' /\
    httpCalls m' = httpCalls m + length (devices (deviceConfig (e m))) /\
    tokenCalls m' = S (tokenCalls m) /\
    deviceConfig (e m') = deviceConfig (e m) /\
    logger (e m') =
      (logger (e m)
       ++ imap (fun j d =>
                  match snd (resty.Get emptyMetricsResult
                               (samplesReplyAt env (httpCalls m + j)
                                  (AccessToken token) (id d))) with
                  | Some err => {| lvl := LevelError; keyvals := metricsFailed d err |}
                  | None => metricsReceived d
                  end)
              (devices (deviceConfig (e m))))%list.
Proof.
  intros Hreg Htoken.
  destruct (retrieveMetrics_with_token env m token Hreg Htoken)
    as (m' & Hrun & Hhttp & Htok & _ & Hdc & _ & _ & _ & Hlog).
  exists m'. auto.
Qed.

Lemma one_request_and_one_log_line_per_device_witness :
  exists m',
    retrieveMetrics firstRequestFails (cached t0 [d1; d2]) = Ret tt m' /\
    httpCalls m' = 0 + 2 /\
    tokenCalls m' = 1 /\
    deviceConfig (e m') = {| lastUpdate := t0; devices := [d1; d2] |} /\
    logger (e m') =
      ([] ++ imap (fun j d =>
                  match snd (resty.Get emptyMetricsResult
                               (samplesReplyAt firstRequestFails (0 + j)
                                  "secret" (id d))) with
                  | Some err => {| lvl := LevelError; keyvals := metricsFailed d err |}
                  | None => metricsReceived d
                  end)
              [d1; d2])%list.
Proof.
  apply (one_request_and_one_log_line_per_device firstRequestFails
           (cached t0 [d1; d2]) {| AccessToken := "secret" |}); reflexivity.
Defined.

Lemma elem_of_concat_imap {A B : Type} (x : B) (l : list A) :
  forall f : nat -> A -> list B,
    x ∈ concat (imap f l) -> exists j a, l !! j = Some a /\ x ∈ f j a.
Proof.
  induction l as [|a l IH]; intros f Hx; simpl in Hx.
  - by apply elem_of_nil in Hx.
  - apply elem_of_app in Hx as [Hx|Hx].
    + by exists 0, a.
    + destruct (IH _ Hx) as (j & b & Hj & Hb). by exists (S j), b.
Qed.

(** Where a sent record comes from: a cached device, a registry entry and
    a numeric reading. *)
Lemma sent_record_origin (env : Env) (m : Machine) (token : Token)
    (r : prometheus.Metric) :
  metrics (e m) = airthingMetrics ->
  tokenAt env (tokenCalls m) = Success token ->
  r ∈ sentBy retrieveMetrics env m ->
  exists (j : nat) (d : Device) (k : AirthingsMetric) (atm : metricInfo) (v : float64),
    devices (deviceConfig (e m)) !! j = Some d /\
    airthingMetrics !! k = Some atm /\
    r = {| prometheus.desc := Desc atm; prometheus.valType := Type_ atm;
           prometheus.value := v;
           prometheus.labelValues := [id d; segment d; location d] |}.
Proof.
  intros Hreg Htoken Hr.
  rewrite (sentBy_retrieveMetrics env token m Hreg Htoken) in Hr.
  apply elem_of_concat_imap in Hr as (j & d & Hj & Hr).
  rewrite (deviceRecords_samples env token m j d Hreg) in Hr.
  unfold samplesRecords in Hr.
  destruct (snd (samplesOf env token (httpCalls m + j) d)); [by apply elem_of_nil in Hr|].
  apply list_elem_of_omap in Hr as ([k v] & _ & Hrec).
  unfold readingRecord in Hrec. simpl in Hrec.
  destruct (airthingMetrics !! k) as [atm|] eqn:Hk; [|discriminate].
  destruct v; try discriminate. injection Hrec as <-.
  by eexists j, d, k, atm, _.
Qed.

(** Every record a scrape sends is well formed: its label values are the
    id, segment and location of one of the cached devices, it is a gauge,
    its descriptor is that of a registry key, and it has as many label
    values as the descriptor has variable labels. *)
Theorem sent_records_are_well_formed (env : Env) (m : Machine) (token : Token)
    (r : prometheus.Metric) :
  metrics (e m) = airthingMetrics ->
  tokenAt env (tokenCalls m) = Success token ->
  r ∈ sentBy retrieveMetrics env m ->
  (exists d, d ∈ devices (deviceConfig (e m)) /\
             prometheus.labelValues r = [id d; segment d; location d]) /\
  prometheus.valType r = prometheus.GaugeValue /\
  (exists k atm, k ∈ registryKeys /\ airthingMetrics !! k = Some atm /\
                 prometheus.desc r = Desc atm) /\
  length (prometheus.labelValues r) =
    length (prometheus.variableLabels (prometheus.desc r)).
Proof.
  intros Hreg Htoken Hr.
  destruct (sent_record_origin env m token r Hreg Htoken Hr)
    as (j & d & k & atm & v & Hj & Hk & ->).
  destruct (registry_lookup k atm Hk) as (Hkey & Hlabels & Hgauge).
  simpl. split; [|split; [exact Hgauge|split]].
  - exists d. split; [by eapply list_elem_of_lookup_2|reflexivity].
  - by exists k, atm.
  - by rewrite Hlabels.
Qed.

Lemma sent_records_are_well_formed_witness :
  let r := {| prometheus.desc := Desc (newMetric "co2" "CO2 levels" prometheus.GaugeValue []);
              prometheus.valType := prometheus.GaugeValue;
              prometheus.value := 450%float;
              prometheus.labelValues := ["d2"; "Lab"; "HQ"] |} in
  (exists d, d ∈ [d1; d2] /\
             prometheus.labelValues r = [id d; segment d; location d]) /\
  prometheus.valType r = prometheus.GaugeValue /\
  (exists k atm, k ∈ registryKeys /\ airthingMetrics !! k = Some atm /\
                 prometheus.desc r = Desc atm) /\
  length (prometheus.labelValues r) =
    length (prometheus.variableLabels (prometheus.desc r)).
Proof.
  apply (sent_records_are_well_formed firstRequestFails (cached t0 [d1; d2])
           {| AccessToken := "secret" |}).
  - reflexivity.
  - reflexivity.
  - vm_compute. left.
Defined.

(** ** [Describe] *)

Lemma sendDescs_run (entries : list (AirthingsMetric * metricInfo)) :
  forall (descs : list prometheus.Desc) (env : Env) (m : Machine),
    sendDescs entries descs env m =
      Ret (descs ++ map (fun entry => Desc entry.2) entries)%list m.
Proof.
  induction entries as [|entry rest IH]; intros descs env m; simpl.
  - unfold ret. by rewrite app_nil_r.
  - by rewrite IH, <- app_assoc.
Qed.

Lemma registry_entries :
  map_to_list airthingMetrics ≡ₚ
    [ (Battery, newMetric "battery" "Battery charge capacity" prometheus.GaugeValue []);
      (CO2, newMetric "co2" "CO2 levels" prometheus.GaugeValue []);
      (Humidity, newMetric "humidity" "Humidity" prometheus.GaugeValue []);
      (Pm1, newMetric "pm1" "Extremely fine particles, less than 1 microns"
              prometheus.GaugeValue []);
      (Pm25, newMetric "pm25" "Fine particles, less than 2.5 microns"
               prometheus.GaugeValue []);
      (Pressure, newMetric "air_pressure" "Pressure" prometheus.GaugeValue []);
      (Radon, newMetric "radon" "Radon, short term average" prometheus.GaugeValue []);
      (Temperature, newMetric "temperature" "Temperature" prometheus.GaugeValue []);
      (VOC, newMetric "voc" "Volatile organic compounds" prometheus.GaugeValue []) ].
Proof.
  unfold airthingMetrics. apply map_to_list_to_map.
  apply (bool_decide_unpack _). vm_compute. reflexivity.
Qed.

(** [Describe] sends, after what the channel already holds, exactly one
    descriptor per registry key, nine in all, in some order; their
    fully-qualified names are pairwise distinct and start with
    [airthings_cloud_], and each declares the labels device, segment,
    location.  It changes nothing in the machine and does not wait for the
    lock. *)
Theorem Describe_sends_each_descriptor_once
    (env : Env) (m : Machine) (descs : list prometheus.Desc) :
  exists ds,
    Describe descs env m = Ret (descs ++ ds)%list m /\
    ds ≡ₚ omap (fun k => Desc <$> airthingMetrics !! k) registryKeys /\
    length ds = 9 /\
    NoDup (prometheus.fqName <$> ds) /\
    Forall (fun d => prometheus.variableLabels d = ["device"; "segment"; "location"] /\
                     exists name, prometheus.fqName d = "airthings_cloud_" ++ name) ds.
Proof.
  unfold Describe, bind, rangeMap. rewrite sendDescs_run.
  eexists. split; [reflexivity|].
  assert (Hperm : map (fun entry : AirthingsMetric * metricInfo => Desc entry.2)
                    (shuffle (visitAt env (httpCalls m)) (map_to_list airthingMetrics))
                  ≡ₚ omap (fun k => Desc <$> airthingMetrics !! k) registryKeys).
  { rewrite shuffle_Permutation, registry_entries. vm_compute. reflexivity. }
  split; [exact Hperm|]. split; [|split].
  - by rewrite Hperm.
  - rewrite Hperm. apply (bool_decide_unpack _). vm_compute. reflexivity.
  - rewrite Hperm. vm_compute.
    repeat (constructor; [split; [reflexivity | eexists; reflexivity]|]).
    constructor.
Qed.

(** Whatever a scrape sends was announced: the descriptor of every record
    sent by [retrieveMetrics] is among those [Describe] sends, in whatever
    world and state [Describe] runs. *)
Theorem sent_descriptors_are_described
    (env env' : Env) (m m' : Machine) (token : Token) (r : prometheus.Metric) :
  metrics (e m) = airthingMetrics ->
  tokenAt env (tokenCalls m) = Success token ->
  r ∈ sentBy retrieveMetrics env m ->
  exists ds,
    Describe [] env' m' = Ret ds m' /\ prometheus.desc r ∈ ds.
Proof.
  intros Hreg Htoken Hr.
  destruct (sent_record_origin env m token r Hreg Htoken Hr)
    as (j & d & k & atm & v & _ & Hk & ->).
  unfold Describe, bind, rangeMap. rewrite sendDescs_run.
  eexists. split; [reflexivity|]. simpl.
  apply (list_elem_of_fmap_2 (fun entry : AirthingsMetric * metricInfo => Desc entry.2)
           _ (k, atm)).
  rewrite shuffle_Permutation. by apply elem_of_map_to_list.
Qed.

Lemma sent_descriptors_are_described_witness :
  exists ds,
    Describe [] noToken initial = Ret ds initial /\
    Desc (newMetric "co2" "CO2 levels" prometheus.GaugeValue []) ∈ ds.
Proof.
  apply (sent_descriptors_are_described firstRequestFails noToken
           (cached t0 [d1; d2]) initial {| AccessToken := "secret" |}
           {| prometheus.desc := Desc (newMetric "co2" "CO2 levels" prometheus.GaugeValue []);
              prometheus.valType := prometheus.GaugeValue;
              prometheus.value := 450%float;
              prometheus.labelValues := ["d2"; "Lab"; "HQ"] |}).
  - reflexivity.
  - reflexivity.
  - vm_compute. left.
Defined.

(** ** [Collect]: a whole scrape *)

Lemma retrieveMetrics_frame (env : Env) (m : Machine) :
  metrics (e m) = airthingMetrics ->
  exists m',
    retrieveMetrics env m = Ret tt m' /\
    deviceConfig (e m') = deviceConfig (e m) /\
    metrics (e m') = metrics (e m) /\
    mutex (e m') = mutex (e m) /\
    nowCalls m' = nowCalls m /\
    tokenCalls m' = S (tokenCalls m) /\
    ch m' = (ch m ++ sentBy retrieveMetrics env m)%list.
Proof.
  intros Hreg.
  destruct (tokenAt env (tokenCalls m)) as [token|err] eqn:Htoken.
  - destruct (retrieveMetrics_with_token env m token Hreg Htoken)
      as (m' & Hrun & _ & Htok & Hnow & Hdc & Hme & Hmu & Hch & _).
    exists m'. rewrite (sentBy_retrieveMetrics env token m Hreg Htoken). auto 10.
  - unfold sentBy, retrieveMetrics, bind, tokenSource_Token. rewrite Htoken.
    eexists. split; [reflexivity|]. simpl.
    rewrite drop_all, app_nil_r. auto 10.
Qed.

Lemma discover_frame (env : Env) (m : Machine) :
  exists (b : bool) (m1 m2 : Machine),
    updateRequired env m = Ret b m1 /\
    discover env m = Ret tt m2 /\
    mutex (e m2) = mutex (e m) /\
    metrics (e m2) = metrics (e m) /\
    ch m2 = ch m /\
    tokenCalls m2 = tokenCalls m + (if b then 1 else 0) /\
    nowCalls m <= nowCalls m2.
Proof.
  destruct (updateRequired_total env m) as (b & m1 & Hreq).
  destruct (updateRequired_frame _ _ _ _ Hreq) as (He & Htok & _ & Hch & Hnow).
  exists b, m1. destruct b.
  - destruct (discover_attempt env m m1 Hreq)
      as (m2 & Hrun & _ & Hnow2 & Htok2 & Hch2 & Hmu & Hme & _).
    exists m2. rewrite Hmu, Hme, He, Hch2, Hch, Htok2, Htok.
    repeat split; try done; lia.
  - exists m1. rewrite (discover_fresh env m m1 Hreq), He, Hch, Htok.
    repeat split; try done; lia.
Qed.

(** A scrape that finds the lock free is [discover] followed by
    [retrieveMetrics], both returning, under the lock. *)
Lemma Collect_run (env : Env) (m : Machine) :
  mutex (e m) = false ->
  metrics (e m) = airthingMetrics ->
  exists m2 m3,
    discover env (withExporter (setMutex true) m) = Ret tt m2 /\
    retrieveMetrics env m2 = Ret tt m3 /\
    Collect env m = Ret tt (withExporter (setMutex false) m3) /\
    metrics (e m2) = airthingMetrics /\
    mutex (e m2) = true.
Proof.
  intros Hfree Hreg.
  destruct (discover_frame env (withExporter (setMutex true) m))
    as (b & m1 & m2 & _ & Hrun & Hmu & Hme & _).
  simpl in Hmu, Hme. rewrite Hreg in Hme.
  destruct (retrieveMetrics_frame env m2 Hme) as (m3 & Hrun3 & _ & _ & Hmu3 & _).
  exists m2, m3. repeat split; try done.
  unfold Collect, bind at 1, mutex_Lock. rewrite Hfree.
  unfold defer, bind at 1. rewrite Hrun, Hrun3.
  unfold bind, mutex_Unlock, ret. by rewrite Hmu3, Hmu.
Qed.

(** A scrape of a fresh inventory touches neither the inventory nor its
    timestamp and makes no inventory request: its only HTTP requests are
    the samples requests, one per cached device, and what it sends is what
    [retrieveMetrics] sends for the cached devices. *)
Theorem scrape_of_fresh_inventory (env : Env) (m : Machine) (token : Token) :
  mutex (e m) = false ->
  metrics (e m) = airthingMetrics ->
  lastUpdate (deviceConfig (e m)) <> time.zero ->
  (nowAt env (nowCalls m) - lastUpdate (deviceConfig (e m)) <= 30 * time.Minute)%Z ->
  tokenAt env (tokenCalls m) = Success token ->
  exists m',
    Collect env m = Ret tt m' /\
    deviceConfig (e m') = deviceConfig (e m) /\
    mutex (e m') = false /\
    tokenCalls m' = S (tokenCalls m) /\
    httpCalls m' = httpCalls m + length (devices (deviceConfig (e m))) /\
    ch m' = (ch m ++ concat (imap (deviceRecords env token m)
                               (devices (deviceConfig (e m)))))%list.
Proof.
  intros Hfree Hreg Hset Hrecent Htoken.
  destruct (Collect_run env m Hfree Hreg) as (m2 & m3 & Hd & Hr & -> & Hreg2 & _).
  assert (Hm2 : m2 = countNow (withExporter (setMutex true) m)).
  { assert (Hreq : updateRequired env (withExporter (setMutex true) m)
                   = Ret false (countNow (withExporter (setMutex true) m))).
    { rewrite updateRequired_run. simpl.
      destruct (Z.eqb_spec (lastUpdate (deviceConfig (e m))) 0) as [Hz|_]; [done|].
      unfold time.IsZero.
      destruct (Z.eqb_spec (lastUpdate (deviceConfig (e m))) 0) as [Hz|_]; [done|].
      destruct (Z.ltb_spec (30 * time.Minute)
                  (nowAt env (nowCalls m) - lastUpdate (deviceConfig (e m)))); [lia|done]. }
    rewrite (discover_fresh _ _ _ Hreq) in Hd. by injection Hd. }
  subst m2.
  destruct (retrieveMetrics_with_token env _ token Hreg2 Htoken)
    as (m3' & Hr' & Hhttp & Htok & _ & Hdc & _ & _ & Hch & _).
  rewrite Hr in Hr'. injection Hr' as <-.
  eexists. split; [reflexivity|]. simpl in *.
  rewrite Hdc, Hhttp, Htok, Hch. repeat split.
  do 2 f_equal. apply imap_ext. intros j d _.
  by rewrite !deviceRecords_samples.
Qed.

Lemma scrape_of_fresh_inventory_witness :
  exists m',
    Collect healthy (cached t0 [d1; d2]) = Ret tt m' /\
    deviceConfig (e m') = {| lastUpdate := t0; devices := [d1; d2] |} /\
    mutex (e m') = false /\
    tokenCalls m' = 1 /\
    httpCalls m' = 0 + 2 /\
    ch m' = ([] ++ concat (imap (deviceRecords healthy {| AccessToken := "secret" |}
                                   (cached t0 [d1; d2])) [d1; d2]))%list.
Proof.
  apply (scrape_of_fresh_inventory healthy (cached t0 [d1; d2])
           {| AccessToken := "secret" |}); try reflexivity.
  - discriminate.
  - discriminate.
Defined.

(** What a stale scrape's [discover] leaves behind, in terms of the machine
    the scrape started in. *)
Lemma Collect_stale (env : Env) (m : Machine) :
  mutex (e m) = false ->
  metrics (e m) = airthingMetrics ->
  (lastUpdate (deviceConfig (e m)) = time.zero \/
   (30 * time.Minute < nowAt env (nowCalls m) - lastUpdate (deviceConfig (e m)))%Z) ->
  exists m2 m3,
    retrieveMetrics env m2 = Ret tt m3 /\
    Collect env m = Ret tt (withExporter (setMutex false) m3) /\
    metrics (e m2) = airthingMetrics /\
    lastUpdate (deviceConfig (e m2)) = nowAt env (pred (nowCalls m2)) /\
    tokenCalls m2 = S (tokenCalls m) /\
    ch m2 = ch m /\
    0 < nowCalls m2 /\
    match tokenAt env (tokenCalls m) with
    | Failure err =>
        devices (deviceConfig (e m2)) = devices (deviceConfig (e m)) /\
        httpCalls m2 = httpCalls m
    | Success token =>
        httpCalls m2 = S (httpCalls m) /\
        let r := resty.Get emptyDevicesResult
                   (devicesReplyAt env (httpCalls m) (AccessToken token)) in
        match snd r with
        | Some err => devices (deviceConfig (e m2)) = devices (deviceConfig (e m))
        | None => devices (deviceConfig (e m2)) = map newDevice (Devices (resty.Result (fst r)))
        end
    end.
Proof.
  intros Hfree Hreg Hstale.
  destruct (Collect_run env m Hfree Hreg) as (m2 & m3 & Hd & Hr & HC & Hreg2 & _).
  apply (updateRequired_iff env (withExporter (setMutex true) m)) in Hstale
    as [m1 Hreq].
  destruct (discover_attempt env _ m1 Hreq)
    as (m2' & Hd' & Hstamp & Hnow & Htok & Hch & _ & _ & Hend).
  rewrite Hd in Hd'. injection Hd' as <-.
  destruct (updateRequired_frame _ _ _ _ Hreq) as (He & Htok1 & Hhttp1 & Hch1 & _).
  simpl in He, Htok1, Hhttp1, Hch1.
  rewrite Htok1, Hhttp1, He in Hend. simpl in Hend.
  exists m2, m3. split; [exact Hr|]. split; [exact HC|]. split; [exact Hreg2|].
  split; [by rewrite Hnow|]. split; [congruence|]. split; [congruence|].
  split; [lia|].
  destruct (tokenAt env (tokenCalls m)) as [token|err].
  - destruct Hend as (Hhttp & Hend). split; [exact Hhttp|]. simpl in *.
    destruct (snd (resty.Get _ _)); tauto.
  - tauto.
Qed.

(** A scrape that refreshes the inventory serves the new inventory at
    once: with both token requests and the inventory request succeeding,
    the scrape ends with the devices of the inventory document cached and
    the timestamp set, and has sent the records of exactly those devices,
    the request of the [j]-th being HTTP call number [1 + j] of the
    scrape. *)
Theorem refreshed_inventory_is_served_in_the_same_scrape
    (env : Env) (m : Machine) (token token2 : Token)
    (resp : resty.Response AirthingsDevicesResult) :
  mutex (e m) = false ->
  metrics (e m) = airthingMetrics ->
  (lastUpdate (deviceConfig (e m)) = time.zero \/
   (30 * time.Minute < nowAt env (nowCalls m) - lastUpdate (deviceConfig (e m)))%Z) ->
  tokenAt env (tokenCalls m) = Success token ->
  resty.Get emptyDevicesResult
    (devicesReplyAt env (httpCalls m) (AccessToken token)) = (resp, None) ->
  tokenAt env (S (tokenCalls m)) = Success token2 ->
  exists m',
    Collect env m = Ret tt m' /\
    devices (deviceConfig (e m')) = map newDevice (Devices (resty.Result resp)) /\
    lastUpdate (deviceConfig (e m')) = nowAt env (pred (nowCalls m')) /\
    httpCalls m' = S (httpCalls m) + length (Devices (resty.Result resp)) /\
    ch m' = (ch m ++ concat (imap (deviceRecords env token2 (countHttp m))
                               (map newDevice (Devices (resty.Result resp)))))%list.
Proof.
  intros Hfree Hreg Hstale Htoken Hget Htoken2.
  destruct (Collect_stale env m Hfree Hreg Hstale)
    as (m2 & m3 & Hr & -> & Hreg2 & Hstamp & Htok & Hch & _ & Hend).
  rewrite Htoken in Hend. simpl in Hend. rewrite Hget in Hend. simpl in Hend.
  destruct Hend as (Hhttp & Hdev).
  rewrite <- Htok in Htoken2.
  destruct (retrieveMetrics_with_token env m2 token2 Hreg2 Htoken2)
    as (m3' & Hr' & Hhttp3 & _ & Hnow3 & Hdc3 & _ & _ & Hch3 & _).
  rewrite Hr in Hr'. injection Hr' as <-.
  eexists. split; [reflexivity|]. simpl.
  rewrite Hdc3, Hnow3, Hhttp3, Hch3, Hdev, Hhttp, Hch, length_map.
  repeat split; try done.
  do 2 f_equal. apply imap_ext. intros j d _.
  rewrite !deviceRecords_samples by done. simpl. by rewrite Hhttp.
Qed.

Lemma refreshed_inventory_is_served_in_the_same_scrape_witness :
  exists m',
    Collect twoDevices (cached time.zero [d2]) = Ret tt m' /\
    devices (deviceConfig (e m')) = map newDevice [officeDevice; labDevice] /\
    lastUpdate (deviceConfig (e m')) = nowAt twoDevices (pred (nowCalls m')) /\
    httpCalls m' = 1 + 2 /\
    ch m' = ([] ++ concat (imap (deviceRecords twoDevices {| AccessToken := "secret" |}
                                   (countHttp (cached time.zero [d2])))
                               (map newDevice [officeDevice; labDevice])))%list.
Proof.
  apply (refreshed_inventory_is_served_in_the_same_scrape twoDevices
           (cached time.zero [d2]) {| AccessToken := "secret" |}
           {| AccessToken := "secret" |}
           {| resty.StatusCode := 200;
              resty.Result := {| Devices := [officeDevice; labDevice] |} |});
    try reflexivity.
  left. reflexivity.
Defined.

(** Stale but available: when the inventory request of a refresh fails,
    the scrape still serves the devices cached before, all of them, and
    the timestamp is set all the same. *)
Theorem failed_refresh_still_serves_cached_devices
    (env : Env) (m : Machine) (token token2 : Token)
    (resp : resty.Response AirthingsDevicesResult) (err : error) :
  mutex (e m) = false ->
  metrics (e m) = airthingMetrics ->
  (lastUpdate (deviceConfig (e m)) = time.zero \/
   (30 * time.Minute < nowAt env (nowCalls m) - lastUpdate (deviceConfig (e m)))%Z) ->
  tokenAt env (tokenCalls m) = Success token ->
  resty.Get emptyDevicesResult
    (devicesReplyAt env (httpCalls m) (AccessToken token)) = (resp, Some err) ->
  tokenAt env (S (tokenCalls m)) = Success token2 ->
  exists m',
    Collect env m = Ret tt m' /\
    devices (deviceConfig (e m')) = devices (deviceConfig (e m)) /\
    lastUpdate (deviceConfig (e m')) = nowAt env (pred (nowCalls m')) /\
    httpCalls m' = S (httpCalls m) + length (devices (deviceConfig (e m))) /\
    ch m' = (ch m ++ concat (imap (deviceRecords env token2 (countHttp m))
                               (devices (deviceConfig (e m)))))%list.
Proof.
  intros Hfree Hreg Hstale Htoken Hget Htoken2.
  destruct (Collect_stale env m Hfree Hreg Hstale)
    as (m2 & m3 & Hr & -> & Hreg2 & Hstamp & Htok & Hch & _ & Hend).
  rewrite Htoken in Hend. simpl in Hend. rewrite Hget in Hend. simpl in Hend.
  destruct Hend as (Hhttp & Hdev).
  rewrite <- Htok in Htoken2.
  destruct (retrieveMetrics_with_token env m2 token2 Hreg2 Htoken2)
    as (m3' & Hr' & Hhttp3 & _ & Hnow3 & Hdc3 & _ & _ & Hch3 & _).
  rewrite Hr in Hr'. injection Hr' as <-.
  eexists. split; [reflexivity|]. simpl.
  rewrite Hdc3, Hnow3, Hhttp3, Hch3, Hdev, Hhttp, Hch.
  repeat split; try done.
  do 2 f_equal. apply imap_ext. intros j d _.
  rewrite !deviceRecords_samples by done. simpl. by rewrite Hhttp.
Qed.

Lemma failed_refresh_still_serves_cached_devices_witness :
  exists m',
    Collect noNetwork (cached time.zero [d1; d2]) = Ret tt m' /\
    devices (deviceConfig (e m')) = [d1; d2] /\
    lastUpdate (deviceConfig (e m')) = nowAt noNetwork (pred (nowCalls m')) /\
    httpCalls m' = 1 + 2 /\
    ch m' = ([] ++ concat (imap (deviceRecords noNetwork {| AccessToken := "secret" |}
                                   (countHttp (cached time.zero [d1; d2])))
                               [d1; d2]))%list.
Proof.
  apply (failed_refresh_still_serves_cached_devices noNetwork
           (cached time.zero [d1; d2]) {| AccessToken := "secret" |}
           {| AccessToken := "secret" |}
           {| resty.StatusCode := 0; resty.Result := emptyDevicesResult |}
           "dial tcp: i/o timeout");
    try reflexivity.
  left. reflexivity.
Defined.

(** The cooldown: after a scrape that attempted a refresh, successful or
    not, the next scrape attempts one exactly when the clock has advanced
    by more than thirty minutes since the reading that stamped the attempt
    (or that reading was the zero time). *)
Theorem next_refresh_waits_for_the_cooldown (env : Env) (m : Machine) :
  mutex (e m) = false ->
  metrics (e m) = airthingMetrics ->
  (lastUpdate (deviceConfig (e m)) = time.zero \/
   (30 * time.Minute < nowAt env (nowCalls m) - lastUpdate (deviceConfig (e m)))%Z) ->
  exists m',
    Collect env m = Ret tt m' /\
    mutex (e m') = false /\
    0 < nowCalls m' /\
    (refreshAttempted env (withExporter (setMutex true) m') <->
       nowAt env (pred (nowCalls m')) = time.zero \/
       (30 * time.Minute < nowAt env (nowCalls m') - nowAt env (pred (nowCalls m')))%Z).
Proof.
  intros Hfree Hreg Hstale.
  destruct (Collect_stale env m Hfree Hreg Hstale)
    as (m2 & m3 & Hr & -> & Hreg2 & Hstamp & _ & _ & Hpos & _).
  destruct (retrieveMetrics_frame env m2 Hreg2)
    as (m3' & Hr' & Hdc & _ & _ & Hnow & _).
  rewrite Hr in Hr'. injection Hr' as <-.
  eexists. split; [reflexivity|]. split; [reflexivity|]. simpl.
  split; [lia|].
  rewrite refreshAttempted_iff. simpl. by rewrite Hdc, Hstamp, Hnow.
Qed.

Lemma next_refresh_waits_for_the_cooldown_witness :
  exists m',
    Collect noToken initial = Ret tt m' /\
    mutex (e m') = false /\
    0 < nowCalls m' /\
    (refreshAttempted noToken (withExporter (setMutex true) m') <->
       nowAt noToken (pred (nowCalls m')) = time.zero \/
       (30 * time.Minute
        < nowAt noToken (nowCalls m') - nowAt noToken (pred (nowCalls m')))%Z).
Proof.
  apply (next_refresh_waits_for_the_cooldown noToken initial).
  - reflexivity.
  - reflexivity.
  - left. reflexivity.
Defined.

Lemma Collect_frame (env : Env) (m : Machine) :
  mutex (e m) = false ->
  metrics (e m) = airthingMetrics ->
  exists m',
    Collect env m = Ret tt m' /\
    mutex (e m') = false /\
    metrics (e m') = airthingMetrics /\
    tokenCalls m < tokenCalls m' <= tokenCalls m + 2 /\
    nowCalls m <= nowCalls m' /\
    ch m' = (ch m ++ sentBy Collect env m)%list.
Proof.
  intros Hfree Hreg.
  destruct (Collect_run env m Hfree Hreg) as (m2 & m3 & Hd & Hr & HC & Hreg2 & _).
  destruct (discover_frame env (withExporter (setMutex true) m))
    as (b & m1 & m2' & _ & Hd' & _ & _ & Hch & Htok & Hnow).
  rewrite Hd in Hd'. injection Hd' as <-.
  destruct (retrieveMetrics_frame env m2 Hreg2)
    as (m3' & Hr' & _ & Hme3 & _ & Hnow3 & Htok3 & Hch3).
  rewrite Hr in Hr'. injection Hr' as <-.
  unfold sentBy. rewrite HC. simpl in *.
  eexists. split; [reflexivity|]. simpl.
  rewrite Hme3, Hreg2, Htok3, Htok, Hnow3, Hch3, Hch.
  rewrite drop_app_length.
  repeat split; try done; destruct b; lia.
Qed.

(** Scrape after scrape: starting with the lock free, any number of
    scrapes return normally, none panics or waits, the lock is free again
    and the registry unchanged after the last; the channel only grows; and
    each scrape has asked for a token once or twice. *)
Theorem scrapes_always_return (env : Env) (n : nat) (m : Machine) :
  mutex (e m) = false ->
  metrics (e m) = airthingMetrics ->
  exists m',
    scrapes n env m = Ret tt m' /\
    mutex (e m') = false /\
    metrics (e m') = airthingMetrics /\
    tokenCalls m + n <= tokenCalls m' <= tokenCalls m + 2 * n /\
    ch m' = (ch m ++ sentBy (scrapes n) env m)%list.
Proof.
  revert m. induction n as [|n IH]; intros m Hfree Hreg.
  - exists m. unfold sentBy. simpl. rewrite drop_all, app_nil_r.
    repeat split; try done; lia.
  - destruct (Collect_frame env m Hfree Hreg)
      as (m1 & HC & Hfree1 & Hreg1 & Htok1 & _ & Hch1).
    destruct (IH m1 Hfree1 Hreg1) as (m' & Hrun & Hfree' & Hreg' & Htok' & Hch').
    exists m'. unfold sentBy. simpl. unfold bind. rewrite HC, Hrun. simpl.
    rewrite Hch', Hch1, <- app_assoc, drop_app_length.
    repeat split; try done; lia.
Qed.

Lemma scrapes_always_return_witness :
  exists m',
    scrapes 3 healthy initial = Ret tt m' /\
    mutex (e m') = false /\
    metrics (e m') = airthingMetrics /\
    tokenCalls initial + 3 <= tokenCalls m' <= tokenCalls initial + 2 * 3 /\
    ch m' = (ch initial ++ sentBy (scrapes 3) healthy initial)%list.
Proof.
  apply (scrapes_always_return healthy 3 initial); reflexivity.
Defined.

(** ** The lock, however the scrape ends *)

Section KeepsLock.

Context {A : Type} (body : A -> M unit).
Hypothesis body_keeps : forall x env m, keepsLock (body x env m) m.

Lemma forEach_keepsLock (xs : list A) :
  forall env m, keepsLock (forEach xs body env m) m.
Proof.
  induction xs as [|x rest IH]; intros env m; simpl.
  - by repeat split.
  - unfold bind. pose proof (body_keeps x env m) as (Hnb & Hmu & Hme).
    destruct (body x env m) as [[] m1|msg m1|m1] eqn:Hbody; simpl in *.
    + destruct (IH env m1) as (Hnb' & Hmu' & Hme').
      repeat split; [exact Hnb' | congruence | congruence].
    + by repeat split.
    + by destruct (Hnb m1).
Qed.

End KeepsLock.

Lemma emitReading_keepsLock (d : Device) (entry : AirthingsMetric * any)
    (env : Env) (m : Machine) :
  keepsLock (emitReading d entry env m) m.
Proof.
  unfold emitReading, bind, getExporter.
  destruct (metrics (e m) !! entry.1) as [atm|]; [|by repeat split].
  destruct entry.2; try (by repeat split).
  unfold MustNewConstMetric.
  destruct (prometheus.NewConstMetric _ _ _ _); by repeat split.
Qed.

Lemma retrieveDevice_keepsLock (token : Token) (d : Device) (env : Env) (m : Machine) :
  keepsLock (retrieveDevice token d env m) m.
Proof.
  unfold retrieveDevice, bind at 1, getLatestSamples.
  destruct (snd (resty.Get _ _)); [by repeat split|].
  unfold bind at 1, Log, modifyExporter, bind, rangeMap.
  match goal with
  | |- keepsLock (forEach ?xs _ _ ?m1) _ =>
      destruct (forEach_keepsLock (emitReading d) (emitReading_keepsLock d) xs env m1)
        as (Hnb & Hmu & Hme)
  end.
  by repeat split.
Qed.

Lemma retrieveMetrics_keepsLock (env : Env) (m : Machine) :
  keepsLock (retrieveMetrics env m) m.
Proof.
  unfold retrieveMetrics, bind at 1, tokenSource_Token.
  destruct (tokenAt env (tokenCalls m)) as [a|err]; [|by repeat split].
  unfold bind, getExporter.
  match goal with
  | |- keepsLock (forEach ?xs _ _ ?m1) _ =>
      destruct (forEach_keepsLock (retrieveDevice a) (retrieveDevice_keepsLock a)
                  xs env m1) as (Hnb & Hmu & Hme)
  end.
  by repeat split.
Qed.

(** Whatever the registry of the exporter and however the scrape ends, a
    scrape that found the lock free does not end waiting for it and leaves
    it free: the deferred [Unlock] runs also when [MustNewConstMetric]
    panics in the middle of the device loop. *)
Theorem lock_is_released_however_the_scrape_ends (env : Env) (m : Machine) :
  mutex (e m) = false ->
  (forall m', Collect env m <> Blocked m') /\
  mutex (e (machineOf (Collect env m))) = false.
Proof.
  intros Hfree.
  destruct (discover_frame env (withExporter (setMutex true) m))
    as (b & m1 & m2 & _ & Hd & Hmu & _).
  simpl in Hmu.
  assert (HC : Collect env m = defer mutex_Unlock retrieveMetrics env m2).
  { unfold Collect, bind at 1, mutex_Lock. rewrite Hfree.
    unfold defer, bind at 1. by rewrite Hd. }
  rewrite HC. unfold defer.
  destruct (retrieveMetrics_keepsLock env m2) as (Hnb & Hmu3 & _).
  destruct (retrieveMetrics env m2) as [[] m3|msg m3|m3]; simpl in *.
  - unfold bind, mutex_Unlock, ret. rewrite Hmu3, Hmu. by split.
  - unfold mutex_Unlock. rewrite Hmu3, Hmu. by split.
  - by destruct (Hnb m3).
Qed.

Lemma lock_is_released_however_the_scrape_ends_witness :
  (forall m', Collect healthy misconfigured <> Blocked m') /\
  mutex (e (machineOf (Collect healthy misconfigured))) = false.
Proof.
  apply (lock_is_released_however_the_scrape_ends healthy misconfigured).
  reflexivity.
Defined.

(** With the two-label registry the first scrape does panic, after the
    refresh; the inventory it fetched stays cached and the lock is free. *)
Example misconfigured_scrape_panics :
  exists msg m',
    Collect healthy misconfigured = Panic msg m' /\
    devices (deviceConfig (e m')) = [d1] /\
    mutex (e m') = false /\
    ch m' = [].
Proof. eexists _, _. vm_compute. repeat split. Qed.

(** ** [discover]: a failed inventory request *)

(** A refresh attempt whose inventory request returns an error has made
    that one HTTP request, logs exactly one error line, carrying the
    error, and sends nothing. *)
Theorem fetch_failure_is_logged_once (env : Env) (m m1 : Machine) (token : Token)
    (resp : resty.Response AirthingsDevicesResult) (err : error) :
  updateRequired env m = Ret true m1 ->
  tokenAt env (tokenCalls m) = Success token ->
  resty.Get emptyDevicesResult
    (devicesReplyAt env (httpCalls m) (AccessToken token)) = (resp, Some err) ->
  exists m2,
    discover env m = Ret tt m2 /\
    httpCalls m2 = S (httpCalls m) /\
    logger (e m2) =
      (logger (e m) ++ [{| lvl := LevelError; keyvals := devicesFailed err |}])%list /\
    ch m2 = ch m.
Proof.
  intros Hreq Htoken Hget.
  destruct (discover_attempt env m m1 Hreq)
    as (m2 & Hrun & _ & _ & _ & Hch & _ & _ & Hend).
  destruct (updateRequired_frame _ _ _ _ Hreq) as (He & Htok & Hhttp & Hch1 & _).
  rewrite Htok, Hhttp, He, Htoken in Hend. simpl in Hend.
  rewrite Hget in Hend. simpl in Hend.
  destruct Hend as (Hcalls & _ & Hlog).
  exists m2. repeat split; congruence.
Qed.

Lemma fetch_failure_is_logged_once_witness :
  exists m2,
    discover noNetwork (cached time.zero [d1]) = Ret tt m2 /\
    httpCalls m2 = 1 /\
    logger (e m2) =
      ([] ++ [{| lvl := LevelError;
                 keyvals := devicesFailed "dial tcp: i/o timeout" |}])%list /\
    ch m2 = [].
Proof.
  apply (fetch_failure_is_logged_once noNetwork (cached time.zero [d1])
           (cached time.zero [d1]) {| AccessToken := "secret" |}
           {| resty.StatusCode := 0; resty.Result := emptyDevicesResult |}
           "dial tcp: i/o timeout"); reflexivity.
Defined.
